(** * Recruiter Chat API (main.py): a shallow embedding and its properties

    The service is one FastAPI module.  Its two stateful collaborators, the
    MongoDB collection [db.chats] and the Groq completion endpoint reached
    through httpx, are modelled as an explicit world that every handler
    threads: the collection is a list of documents in natural order, the
    requests handed to the HTTP client are logged, and the behaviour of the
    outside (provider answers, driver faults, the process environment) is
    read from an [Env].  The one thing the development fixes about it is
    what the HTTP client does itself before anything is sent: it encodes
    the body with the standard JSON encoder, which has no encoding for a
    [datetime].

    Python dictionaries and Mongo documents are finite maps from field
    names to dynamically typed values; handlers live in a state-and-exception
    monad whose [try_except] is Python's [try: ... except Exception].

    The rate limiter, CORS and the validation of request bodies belong to
    the framework and stay outside: a handler here starts with a request
    that pydantic has accepted. *)

From stdpp Require Import gmap strings list fin_maps.
From Stdlib Require Import ZArith QArith.

#[local] Set Warnings "-register-all".
#[local] Open Scope string_scope.
#[local] Open Scope Z_scope.
#[local] Open Scope list_scope.

(** * The program *)

(** ** Dynamically typed values *)

(** A reading of [datetime.utcnow()]. *)
Definition Time : Type := nat.

(** The Python objects that flow through the module: what [json] decoding
    and the BSON codec produce, plus [datetime]. *)
Inductive PyVal : Type :=
| PyNone
| PyBool (b : bool)
| PyInt (z : Z)
| PyFloat (q : Q)
| PyStr (s : string)
| PyTime (t : Time)
| PyList (l : list PyVal)
| PyDict (d : gmap string PyVal).

(** A Mongo document, a JSON object, a Python [dict] with string keys. *)
Abbreviation Doc := (gmap string PyVal).

(** Whether [json.dumps(v)] returns.  The standard encoder knows [None],
    booleans, numbers, strings, lists and dictionaries with string keys; on
    a [datetime], at whatever depth, it raises [TypeError]. *)
Fixpoint encodes (v : PyVal) : bool :=
  match v with
  | PyTime _ => false
  | PyList l => forallb encodes l
  | PyDict d => map_fold (λ _ x b, encodes x && b) true d
  | _ => true
  end.

(** Python truth value testing ([if x], [not x]). *)
Definition truthy (v : PyVal) : bool :=
  match v with
  | PyNone => false
  | PyBool b => b
  | PyInt z => negb (z =? 0)
  | PyFloat q => negb (Qeq_bool q 0)
  | PyStr s => negb (bool_decide (s = ""))
  | PyTime _ => true
  | PyList l => negb (bool_decide (length l = 0%nat))
  | PyDict d => negb (bool_decide (size d = 0%nat))
  end.

(** ** Exceptions and results *)

(** The exception classes the module distinguishes: FastAPI's
    [HTTPException], [httpx.TimeoutException], and every other subclass of
    [Exception] (KeyError, TypeError, driver and transport errors, ...),
    kept as class name and message. *)
Inductive exn : Type :=
| HTTPException (status_code : Z) (detail : string)
| TimeoutException (msg : string)
| PyException (cls msg : string).

Inductive Result (A : Type) : Type :=
| Ok (a : A)
| Raise (e : exn).
Arguments Ok {A} a.
Arguments Raise {A} e.

#[global] Instance Result_ret : MRet Result := λ A a, Ok a.
#[global] Instance Result_bind : MBind Result := λ A B f r,
  match r with
  | Ok a => f a
  | Raise e => Raise e
  end.

Definition is_Ok {A} (r : Result A) : bool :=
  match r with Ok _ => true | Raise _ => false end.

(** [v[key]] for a string key. *)
Definition getitem (v : PyVal) (key : string) : Result PyVal :=
  match v with
  | PyDict d =>
      match d !! key with
      | Some x => Ok x
      | None => Raise (PyException "KeyError" key)
      end
  | PyList _ | PyStr _ => Raise (PyException "TypeError" "indices must be integers")
  | _ => Raise (PyException "TypeError" "object is not subscriptable")
  end.

(** [v[0]].  Keys of a decoded JSON object are strings, so [0] is never a
    key of a dictionary. *)
Definition getitem0 (v : PyVal) : Result PyVal :=
  match v with
  | PyList (x :: _) => Ok x
  | PyList [] => Raise (PyException "IndexError" "list index out of range")
  | PyStr (String c _) => Ok (PyStr (String c ""))
  | PyStr "" => Raise (PyException "IndexError" "string index out of range")
  | PyDict _ => Raise (PyException "KeyError" "0")
  | _ => Raise (PyException "TypeError" "object is not subscriptable")
  end.

(** [l[-n:]] on a list, for [n > 0]: the last [n] elements, all of them
    when there are fewer. *)
Definition last_n {A} (n : nat) (l : list A) : list A :=
  drop (length l - n) l.

Definition string_last_n (n : nat) (s : string) : string :=
  String.string_of_list_ascii (last_n n (String.list_ascii_of_string s)).

(** [v[-10:]]: lists and strings can be sliced, nothing else here can. *)
Definition getslice_last10 (v : PyVal) : Result PyVal :=
  match v with
  | PyList l => Ok (PyList (last_n 10 l))
  | PyStr s => Ok (PyStr (string_last_n 10 s))
  | _ => Raise (PyException "TypeError" "object is not subscriptable")
  end.

(** [v.append(x)], returning the list as it is after the call. *)
Definition list_append (v x : PyVal) : Result (list PyVal) :=
  match v with
  | PyList l => Ok (l ++ [x])
  | _ => Raise (PyException "AttributeError" "object has no attribute 'append'")
  end.

(** ** Pydantic models

    The module also declares [Message] and never uses it: turns are plain
    dictionaries, in the store and on the way to the provider. *)

Module RecruiterInfo.
Record t : Type := Build {
  company : option string;
  email : option string;
  name : option string;
}.

Definition opt (o : option string) : PyVal :=
  match o with
  | Some s => PyStr s
  | None => PyNone
  end.

(** [.dict()]: every declared field is a key, unset ones map to [None]. *)
Definition dict (r : t) : Doc :=
  {[ "company" := opt (company r); "email" := opt (email r); "name" := opt (name r) ]}.
End RecruiterInfo.

Module ChatRequest.
Record t : Type := Build {
  message : string;
  session_id : string;
  recruiter_info : option RecruiterInfo.t;
}.
End ChatRequest.

Module ChatResponse.
Record t : Type := Build {
  response : string;
  session_id : string;
}.
End ChatResponse.

(** ** The outside world *)

(** What [client.post] is handed. *)
Record PostRequest : Type := {
  url : string;
  headers : list (string * string);
  model : string;
  messages : list PyVal;
  max_tokens : Z;
  temperature : Q;
  timeout : Q;
}.

(** An [httpx.Response]: [json = None] when the body does not decode. *)
Record Response : Type := {
  status_code : Z;
  text : string;
  json : option PyVal;
}.

(** How [await client.post(...)] ends: with the provider's response, with
    [httpx.TimeoutException], or with another exception, raised by the
    transport or by the client itself while it builds the request. *)
Inductive Outcome : Type :=
| Returned (r : Response)
| TimedOut (msg : string)
| Failed (cls msg : string).

(** Everything the module does not decide itself. *)
Record Env : Type := {
  (** [os.getenv("GROQ_API_KEY")] *)
  GROQ_API_KEY : option string;
  (** the outcome of the [n]-th request handed to the HTTP client *)
  groq : nat -> PostRequest -> Outcome;
  (** [client.post(json=...)] encodes the body with [json.dumps] before it
      opens a connection: a body that does not encode ends the call with
      the encoder's [TypeError], whatever the provider would have said *)
  groq_encodes : ∀ n r,
    forallb encodes (messages r) = false ->
    groq n r = Failed "TypeError" "Object of type datetime is not JSON serializable";
  (** the error, if any, on which the [n]-th driver command fails *)
  mongo_fault : nat -> option string;
  (** [str(e)] *)
  str_exn : exn -> string;
  (** pydantic's coercion of a non-string value to a [str] field *)
  coerce_str : PyVal -> option string;
}.

Record World : Type := {
  (** [db.chats], in natural order *)
  chats_collection : list Doc;
  (** the wall clock *)
  utc : Time;
  (** requests handed to the HTTP client so far, oldest first *)
  sent : list PostRequest;
  (** driver commands issued so far *)
  db_commands : nat;
}.

(** ** The handler monad *)

Definition M (A : Type) : Type := World -> Result A * World.

#[global] Instance M_ret : MRet M := λ A a w, (Ok a, w).
#[global] Instance M_bind : MBind M := λ A B f m w,
  match m w with
  | (Ok a, w') => f a w'
  | (Raise e, w') => (Raise e, w')
  end.

Definition raise {A} (e : exn) : M A := λ w, (Raise e, w).

Definition lift {A} (r : Result A) : M A := λ w, (r, w).

(** [try: body except Exception as e: handler(e)].  Effects of the body up
    to the raise stay. *)
Definition try_except {A} (body : M A) (handler : exn -> M A) : M A := λ w,
  match body w with
  | (Ok a, w') => (Ok a, w')
  | (Raise e, w') => handler e w'
  end.

(** [datetime.utcnow()].  The clock moves on by one tick at each reading;
    nothing below depends on the readings themselves. *)
Definition utcnow : M Time := λ w,
  (Ok (utc w),
   {| chats_collection := chats_collection w; utc := S (utc w);
      sent := sent w; db_commands := db_commands w |}).

(** ** Effects *)

Definition set_chats (c : list Doc) (w : World) : World :=
  {| chats_collection := c; utc := utc w; sent := sent w;
     db_commands := db_commands w |}.

Definition count_command (w : World) : World :=
  {| chats_collection := chats_collection w; utc := utc w; sent := sent w;
     db_commands := S (db_commands w) |}.

Definition log_request (r : PostRequest) (w : World) : World :=
  {| chats_collection := chats_collection w; utc := utc w;
     sent := sent w ++ [r]; db_commands := db_commands w |}.

(** [v == sid] for a value of the store. *)
Definition is_str (sid : string) (v : PyVal) : bool :=
  match v with
  | PyStr s => bool_decide (s = sid)
  | _ => false
  end.

(** The query [{"session_id": sid}]: the field equals [sid], or is an array
    with an element equal to [sid]. *)
Definition matches (sid : string) (d : Doc) : bool :=
  match d !! "session_id" with
  | Some (PyList l) => existsb (is_str sid) l
  | Some v => is_str sid v
  | None => false
  end.

(** The update document of [chat_endpoint] applied to one document:
    [$push] with [$each] appends to the array (creating it when the field is
    missing, refusing a field that is no array), [$set] writes the field. *)
Definition push_each_and_set (turns : list PyVal) (now : Time) (d : Doc) : Result Doc :=
  match d !! "messages" with
  | None =>
      Ok (<["updated_at" := PyTime now]> (<["messages" := PyList turns]> d))
  | Some (PyList l) =>
      Ok (<["updated_at" := PyTime now]> (<["messages" := PyList (l ++ turns)]> d))
  | Some _ =>
      Raise (PyException "WriteError" "The field 'messages' must be an array")
  end.

(** [update_one] changes the first document the filter selects, and none
    when it selects none. *)
Fixpoint update_first (sid : string) (f : Doc -> Result Doc) (c : list Doc)
  : Result (list Doc) :=
  match c with
  | [] => Ok []
  | d :: c' =>
      if matches sid d then d' ← f d; Ok (d' :: c')
      else c'' ← update_first sid f c'; Ok (d :: c'')
  end.

(** The system prompt. *)
Definition CANDIDATE_INFO : string := "
Name: [Your Full Name]
Current Role: [Your Current Position]
Experience: [Years] years in [Your Field]

Key Skills:
- [Skill 1 - e.g., Python, JavaScript, React]
- [Skill 2 - e.g., Machine Learning, Data Analysis]
- [Skill 3 - e.g., Cloud Computing, AWS, Docker]
- [Add more relevant skills]

Recent Experience:
- [Company Name]: [Your Role] ([Duration - e.g., 2022-Present])
  • [Key achievement or responsibility]
  • [Another achievement with metrics if possible]
  
- [Previous Company]: [Previous Role] ([Duration])
  • [Key achievement]
  • [Another achievement]

Education:
- [Degree] in [Field] from [University] ([Year])
- [Any relevant certifications or additional education]

Notable Projects:
- [Project 1]: [Brief description and technologies used]
- [Project 2]: [Brief description and impact/results]

Interests: [What type of roles/companies you're interested in]
Location: [Your location and remote work preferences]
Availability: [Current availability status]

Instructions for AI: 
You are representing this candidate to recruiters. Be professional, enthusiastic, and highlight relevant experience based on what the recruiter is asking about. Answer questions about their background, skills, and experience. If you don't have specific information about something, politely indicate that the recruiter can reach out directly to the candidate for more details. Always be honest about the candidate's experience and don't exaggerate. Be helpful in understanding if there might be a good fit for their role.
".

Definition GROQ_URL : string := "https://api.groq.com/openai/v1/chat/completions".

(** ** The handlers *)

Section Service.
Context (env : Env).

(** One command sent through the driver: it fails as a whole when the
    store cannot be reached, and otherwise runs on the collection. *)
Definition command {A} (op : list Doc -> Result A * list Doc) : M A := λ w,
  match mongo_fault env (db_commands w) with
  | Some msg => (Raise (PyException "PyMongoError" msg), count_command w)
  | None =>
      let '(r, c) := op (chats_collection w) in
      (r, set_chats c (count_command w))
  end.

(** [chats_collection.find_one({"session_id": sid})] *)
Definition find_one (sid : string) : M (option Doc) :=
  command (λ c, (Ok (find (matches sid) c), c)).

(** [chats_collection.insert_one(doc)].  The [_id] the driver adds is not
    modelled: the module never reads it. *)
Definition insert_one (d : Doc) : M unit :=
  command (λ c, (Ok tt, c ++ [d])).

(** [chats_collection.update_one({"session_id": sid},
      {"$push": {"messages": {"$each": turns}}, "$set": {"updated_at": now}})] *)
Definition update_one (sid : string) (turns : list PyVal) (now : Time) : M unit :=
  command (λ c,
    match update_first sid (push_each_and_set turns now) c with
    | Ok c' => (Ok tt, c')
    | Raise e => (Raise e, c)
    end).

(** [db.command("ping")] *)
Definition ping : M unit :=
  command (λ c, (Ok tt, c)).

(** [await client.post(...)] (lines 110-123).  The request is logged as
    handed to the client; how the call ends is [groq env], which by
    [groq_encodes] is the encoder's [TypeError] when the messages carry a
    [datetime]: the stored turns do, so do the contexts cut from them. *)
Definition client_post (r : PostRequest) : M Response := λ w,
  match groq env (length (sent w)) r with
  | Returned resp => (Ok resp, log_request r w)
  | TimedOut msg => (Raise (TimeoutException msg), log_request r w)
  | Failed cls msg => (Raise (PyException cls msg), log_request r w)
  end.

(** [response.json()] *)
Definition response_json (r : Response) : Result PyVal :=
  match json r with
  | Some v => Ok v
  | None => Raise (PyException "JSONDecodeError" "Expecting value")
  end.

(** [not groq_api_key] *)
Definition key_missing (k : option string) : bool :=
  match k with
  | Some s => negb (truthy (PyStr s))
  | None => true
  end.

Definition system_message : PyVal :=
  PyDict {[ "role" := PyStr "system"; "content" := PyStr CANDIDATE_INFO ]}.

Definition groq_request (key : string) (api_messages : list PyVal) : PostRequest :=
  {| url := GROQ_URL;
     headers := [("Authorization", "Bearer " +:+ key);
                 ("Content-Type", "application/json")];
     model := "llama-3.1-8b-instant";
     messages := api_messages;
     max_tokens := 1000;
     temperature := (7 # 10)%Q;
     timeout := (30 # 1)%Q |}.

(** ** [get_chat_response] (lines 95-137) *)
Definition get_chat_response (messages : list PyVal) : M PyVal :=
  let api_messages := [system_message] ++ messages in
  let groq_api_key := GROQ_API_KEY env in
  if key_missing groq_api_key then
    raise (HTTPException 500 "Groq API key not configured")
  else
    try_except
      (response ← client_post (groq_request (default "" groq_api_key) api_messages);
       if status_code response =? 200 then
         lift (result ← response_json response;
               choices ← getitem result "choices";
               choice ← getitem0 choices;
               message ← getitem choice "message";
               getitem message "content")
       else
         raise (HTTPException (status_code response)
                  ("Groq API error: " +:+ text response)))
      (λ e,
         match e with
         | TimeoutException _ => raise (HTTPException 504 "Request timeout")
         | _ => raise (HTTPException 500
                         ("Error calling Groq API: " +:+ str_exn env e))
         end).

(** ** [chat_endpoint] (lines 145-199) *)

(** A stored turn: [{"role": ..., "content": ..., "timestamp": ...}]. *)
Definition turn (role : string) (content : PyVal) (timestamp : Time) : PyVal :=
  PyDict {[ "role" := PyStr role; "content" := content;
            "timestamp" := PyTime timestamp ]}.

(** The record written for an unknown session (lines 154-159). *)
Definition new_chat_doc (chat_request : ChatRequest.t) (created_at : Time) : Doc :=
  {[ "session_id" := PyStr (ChatRequest.session_id chat_request);
     "messages" := PyList [];
     "recruiter_info" :=
       PyDict (match ChatRequest.recruiter_info chat_request with
               | Some info => RecruiterInfo.dict info
               | None => ∅
               end);
     "created_at" := PyTime created_at ]}.

(** Lines 150-160: get the existing conversation or create a new one. *)
Definition get_or_create (chat_request : ChatRequest.t) : M Doc :=
  chat_doc ← find_one (ChatRequest.session_id chat_request);
  match chat_doc with
  | Some d => mret d
  | None =>
      created_at ← utcnow;
      let d := new_chat_doc chat_request created_at in
      insert_one d;;
      mret d
  end.

(** Lines 170-171: the messages for the model, the last ten stored ones
    and the new one. *)
Definition prepare_messages (chat_doc : Doc) (message : string)
  : Result (list PyVal) :=
  stored ← getitem (PyDict chat_doc) "messages";
  window ← (if truthy stored then getslice_last10 stored else Ok (PyList []));
  list_append window
    (PyDict {[ "role" := PyStr "user"; "content" := PyStr message ]}).

(** Lines 150-171, the body up to the call of the client: it yields
    [user_message] and [messages_for_ai]. *)
Definition open_call (chat_request : ChatRequest.t) : M (PyVal * list PyVal) :=
  chat_doc ← get_or_create chat_request;
  timestamp ← utcnow;
  let user_message :=
    turn "user" (PyStr (ChatRequest.message chat_request)) timestamp in
  messages_for_ai ←
    lift (prepare_messages chat_doc (ChatRequest.message chat_request));
  mret (user_message, messages_for_ai).

(** [ChatResponse(response=..., session_id=...)]: pydantic validates the
    [str] field. *)
Definition new_ChatResponse (response : PyVal) (session_id : string)
  : Result ChatResponse.t :=
  match response with
  | PyStr s => Ok (ChatResponse.Build s session_id)
  | v =>
      match coerce_str env v with
      | Some s => Ok (ChatResponse.Build s session_id)
      | None => Raise (PyException "ValidationError" "str type expected")
      end
  end.

Definition chat_endpoint (chat_request : ChatRequest.t) : M ChatResponse.t :=
  try_except
    ('(user_message, messages_for_ai) ← open_call chat_request;
     ai_response ← get_chat_response messages_for_ai;
     timestamp ← utcnow;
     let assistant_message := turn "assistant" ai_response timestamp in
     updated_at ← utcnow;
     update_one (ChatRequest.session_id chat_request)
       [user_message; assistant_message] updated_at;;
     lift (new_ChatResponse ai_response (ChatRequest.session_id chat_request)))
    (λ e, raise (HTTPException 500
                   ("Error processing chat: " +:+ str_exn env e))).

(** ** [health_check] (lines 202-209) *)
Definition health_check : M (string * Time) :=
  try_except
    (ping;;
     timestamp ← utcnow;
     mret ("healthy", timestamp))
    (λ e, raise (HTTPException 503
                   ("Database connection failed: " +:+ str_exn env e))).

(** A client issuing chat calls one after the other. *)
Fixpoint serve (calls : list ChatRequest.t) (w : World)
  : list (Result ChatResponse.t) * World :=
  match calls with
  | [] => ([], w)
  | chat_request :: calls' =>
      let '(r, w') := chat_endpoint chat_request w in
      let '(rs, w'') := serve calls' w' in
      (r :: rs, w'')
  end.

End Service.

(** * Specification devices *)

(** ** Observations of the store *)

(** The session record a lookup by [sid] yields. *)
Definition session (sid : string) (w : World) : option Doc :=
  find (matches sid) (chats_collection w).

Definition doc_turns (d : Doc) : list PyVal :=
  match d !! "messages" with
  | Some (PyList l) => l
  | _ => []
  end.

(** The stored message sequence of session [sid]. *)
Definition stored_turns (sid : string) (w : World) : list PyVal :=
  match session sid w with
  | Some d => doc_turns d
  | None => []
  end.

(** Two documents that differ at most in [messages] and [updated_at]. *)
Definition same_session_fields (d d' : Doc) : Prop :=
  ∀ k : string, k ≠ "messages" -> k ≠ "updated_at" -> d' !! k = d !! k.

(** The entry the new message contributes to the context (line 171). *)
Definition user_entry (message : string) : PyVal :=
  PyDict {[ "role" := PyStr "user"; "content" := PyStr message ]}.

(** What a call may do to the collection before the client is invoked:
    nothing, or insert the record of a session no lookup finds. *)
Inductive creates (req : ChatRequest.t) (c : list Doc) : list Doc -> Prop :=
| creates_nothing :
    creates req c c
| creates_session t :
    find (matches (ChatRequest.session_id req)) c = None ->
    creates req c (c ++ [new_chat_doc req t]).

Section Summary.
Context (env : Env).

(** What the caller gets once a completion [ai] is there and stored. *)
Definition reply (ai : PyVal) (sid : string) : Result ChatResponse.t :=
  match new_ChatResponse env ai sid with
  | Ok resp => Ok resp
  | Raise e =>
      Raise (HTTPException 500 ("Error processing chat: " +:+ str_exn env e))
  end.

(** What a call does to the collection [c] it finds when the client is
    invoked, and what it answers: it fails and writes nothing, or it pushes
    the user turn and the assistant turn onto the session's record. *)
Inductive appends (req : ChatRequest.t) (c : list Doc)
  : Result ChatResponse.t -> list Doc -> Prop :=
| appends_nothing cause :
    appends req c
      (Raise (HTTPException 500 ("Error processing chat: " +:+ str_exn env cause)))
      c
| appends_pair t1 ai t2 t3 c' :
    update_first (ChatRequest.session_id req)
      (push_each_and_set
         [turn "user" (PyStr (ChatRequest.message req)) t1;
          turn "assistant" ai t2] t3) c = Ok c' ->
    appends req c (reply ai (ChatRequest.session_id req)) c'.

End Summary.

(** ** The shape of stored records *)

(** A turn as the module stores it. *)
Definition turn_shape (v : PyVal) : Prop :=
  ∃ role content timestamp, v = turn role content timestamp.

(** A session record as the module stores it: [updated_at] is missing as
    long as no turn has been appended, and a time afterwards. *)
Definition session_shape (d : Doc) : Prop :=
  ∃ sid turns info created,
    d !! "session_id" = Some (PyStr sid) ∧
    d !! "messages" = Some (PyList turns) ∧
    Forall turn_shape turns ∧
    d !! "recruiter_info" = Some (PyDict info) ∧
    d !! "created_at" = Some (PyTime created) ∧
    match d !! "updated_at" with
    | None => turns = []
    | Some u => (∃ updated, u = PyTime updated) ∧ turns ≠ []
    end.

(** The record shape in the words of the specification: the five fields,
    on every record. *)
Definition spec_record_shape (d : Doc) : Prop :=
  ∃ sid turns info created updated,
    d !! "session_id" = Some (PyStr sid) ∧
    d !! "messages" = Some (PyList turns) ∧
    Forall turn_shape turns ∧
    d !! "recruiter_info" = Some (PyDict info) ∧
    d !! "created_at" = Some (PyTime created) ∧
    d !! "updated_at" = Some (PyTime updated).

(** [session_id] is a key: no filter selects two records. *)
Definition unique_sessions (c : list Doc) : Prop :=
  ∀ sid, (length (List.filter (matches sid) c) ≤ 1)%nat.

Definition store_ok (c : list Doc) : Prop :=
  Forall session_shape c ∧ unique_sessions c.

(** The entry shape in the words of the specification: a dictionary with
    the two keys [role] and [content]. *)
Definition spec_entry_shape (v : PyVal) : Prop :=
  ∃ d : Doc, v = PyDict d ∧ dom d = {[ "role"; "content" ]}.

(** ** Transcripts *)



(** ** Postconditions

    [ensures m w Q]: run from [w], the handler [m] ends with a result and a
    world that satisfy [Q].  Handlers are total functions, so this is about
    the one run there is. *)
Definition ensures {A} (m : M A) (w : World) (Q : Result A -> World -> Prop) : Prop :=
  Q (m w).1 (m w).2.

(** ** Sample worlds *)

Definition completion (content : PyVal) : Response :=
  {| status_code := 200;
     text := "";
     json := Some (PyDict {[ "choices" :=
               PyList [PyDict {[ "message" :=
                 PyDict {[ "role" := PyStr "assistant"; "content" := content ]} ]}] ]}) |}.

(** The client in front of a provider: [answers] is consulted only for a
    body that encodes. *)
Definition encoding (answers : nat -> PostRequest -> Outcome)
    (n : nat) (r : PostRequest) : Outcome :=
  if forallb encodes (messages r) then answers n r
  else Failed "TypeError" "Object of type datetime is not JSON serializable".

Definition encoding_encodes (answers : nat -> PostRequest -> Outcome) n r
    (H : forallb encodes (messages r) = false) :
    encoding answers n r
    = Failed "TypeError" "Object of type datetime is not JSON serializable" :=
  eq_ind_r (x := false)
    (λ b : bool,
       (if b then answers n r
        else Failed "TypeError" "Object of type datetime is not JSON serializable")
       = Failed "TypeError" "Object of type datetime is not JSON serializable")
    eq_refl H.

Definition render (e : exn) : string :=
  match e with
  | HTTPException _ detail => detail
  | TimeoutException msg => msg
  | PyException _ msg => msg
  end.

(** A configured key, a reachable store, and a provider that always answers
    the same sentence. *)
Definition env_ok : Env :=
  {| GROQ_API_KEY := Some "gsk_test";
     groq := encoding (λ _ _,
       Returned (completion (PyStr "I have 5 years of Python experience.")));
     groq_encodes := encoding_encodes _;
     mongo_fault := λ _, None;
     str_exn := render;
     coerce_str := λ _, None |}.

(** The same, without a key. *)
Definition env_nokey : Env :=
  {| GROQ_API_KEY := None;
     groq := groq env_ok;
     groq_encodes := groq_encodes env_ok;
     mongo_fault := λ _, None;
     str_exn := render;
     coerce_str := λ _, None |}.

(** A provider that does not answer in time. *)
Definition env_timeout : Env :=
  {| GROQ_API_KEY := Some "gsk_test";
     groq := encoding (λ _ _, TimedOut "timed out");
     groq_encodes := encoding_encodes _;
     mongo_fault := λ _, None;
     str_exn := render;
     coerce_str := λ _, None |}.

(** A provider that refuses the request. *)
Definition env_busy : Env :=
  {| GROQ_API_KEY := Some "gsk_test";
     groq := encoding (λ _ _,
       Returned {| status_code := 429; text := "rate limit"; json := None |});
     groq_encodes := encoding_encodes _;
     mongo_fault := λ _, None;
     str_exn := render;
     coerce_str := λ _, None |}.

(** A provider whose completion has no text. *)
Definition env_null : Env :=
  {| GROQ_API_KEY := Some "gsk_test";
     groq := encoding (λ _ _, Returned (completion PyNone));
     groq_encodes := encoding_encodes _;
     mongo_fault := λ _, None;
     str_exn := render;
     coerce_str := λ _, None |}.

(** A store that cannot be reached. *)
Definition env_down : Env :=
  {| GROQ_API_KEY := Some "gsk_test";
     groq := groq env_ok;
     groq_encodes := groq_encodes env_ok;
     mongo_fault := λ _, Some "connection refused";
     str_exn := render;
     coerce_str := λ _, None |}.

Definition world0 : World :=
  {| chats_collection := []; utc := 0%nat; sent := []; db_commands := 0%nat |}.

Definition ask (sid message : string) : ChatRequest.t :=
  ChatRequest.Build message sid None.

(** The store after one answered call on session [s1]. *)
Definition world1 : World :=
  (chat_endpoint env_ok (ask "s1" "Hello") world0).2.

Definition answer : PyVal := PyStr "I have 5 years of Python experience.".

(** ** [root] (lines 139-141) *)
Definition root : M Doc :=
  mret {[ "message" := PyStr "Recruiter Chat API is running!" ]}.

(** ** Devices for the further properties *)

(** The exception a chat call raises for the failure [cause] (line 199). *)
Definition chat_error (env : Env) (cause : exn) : exn :=
  HTTPException 500 ("Error processing chat: " +:+ str_exn env cause).

(** A message sequence made of exchanges: a user turn with a text, then
    an assistant turn. *)
Inductive dialogue : list PyVal -> Prop :=
| dialogue_nil :
    dialogue []
| dialogue_exchange text t1 ai t2 rest :
    dialogue rest ->
    dialogue (turn "user" (PyStr text) t1 :: turn "assistant" ai t2 :: rest).

(** A record and what a later state has made of it: the same record but
    for [updated_at], with turns added at the end of [messages]. *)
Definition grows (d d' : Doc) : Prop :=
  same_session_fields d d' ∧ doc_turns d `prefix_of` doc_turns d'.

(** The [messages] field of a record is there and is a list. *)
Definition has_turn_list (d : Doc) : Prop :=
  ∃ l, d !! "messages" = Some (PyList l).

(** A request as the service builds it for one of [calls]: the fixed
    parameters and the key of the environment, and as messages the system
    prompt, at most ten context entries and the message of the call. *)
Definition service_request (env : Env) (calls : list ChatRequest.t)
    (r : PostRequest) : Prop :=
  ∃ key context req,
    GROQ_API_KEY env = Some key ∧
    key ≠ "" ∧
    req ∈ calls ∧
    (length context ≤ 10)%nat ∧
    r = groq_request key
          (system_message :: context ++ [user_entry (ChatRequest.message req)]).

(** Every record of the collection holds a dialogue. *)
Definition holds_dialogues (c : list Doc) : Prop :=
  Forall (λ d, dialogue (doc_turns d)) c.

(** The provider answers the request built from [msgs] in world [w] with
    status 200 and a completion whose first choice has [content]. *)
Definition provider_answers (env : Env) (w : World) (msgs : list PyVal)
    (content : PyVal) : Prop :=
  ∃ key resp (body choice message : Doc) rest,
    GROQ_API_KEY env = Some key ∧
    key ≠ "" ∧
    groq env (length (sent w)) (groq_request key (system_message :: msgs))
    = Returned resp ∧
    status_code resp = 200 ∧
    json resp = Some (PyDict body) ∧
    body !! "choices" = Some (PyList (PyDict choice :: rest)) ∧
    choice !! "message" = Some (PyDict message) ∧
    message !! "content" = Some content.

(** The driver commands numbered from [n] up to, not including, [n'] all
    went through. *)
Definition commands_pass (env : Env) (n n' : nat) : Prop :=
  ∀ k, (n ≤ k < n')%nat -> mongo_fault env k = None.


(** ** Runs on one session *)





(** ** More sample worlds *)

(** A collection with a record for [s1] that has no [messages]. *)
Definition world_bad : World :=
  {| chats_collection := [{[ "session_id" := PyStr "s1" ]}];
     utc := 0%nat; sent := []; db_commands := 0%nat |}.

(** The turns of [n] exchanges, as the service stores them. *)
Definition exchanges (n : nat) : list PyVal :=
  flat_map
    (λ k, [turn "user" (PyStr "Hello") (4 * k + 1)%nat;
           turn "assistant" answer (4 * k + 2)%nat])
    (seq 0 n).

(** A collection whose record of [s1] holds ten exchanges. *)
Definition world10 : World :=
  {| chats_collection :=
       [<[ "updated_at" := PyTime 39%nat ]>
          (<[ "messages" := PyList (exchanges 10) ]>
             (new_chat_doc (ask "s1" "Hello") 0%nat))];
     utc := 40%nat; sent := []; db_commands := 20%nat |}.

(** * Runs *)

(** The example of the specification: a first call on [s1]. *)
Example spec_example_response :
  fst (chat_endpoint env_ok (ask "s1" "Tell me about your Python experience") world0)
  = Ok (ChatResponse.Build "I have 5 years of Python experience." "s1").
Proof. vm_compute. reflexivity. Qed.

Example spec_example_store :
  length (stored_turns "s1"
    (snd (chat_endpoint env_ok (ask "s1" "Tell me about your Python experience") world0)))
  = 2%nat.
Proof. vm_compute. reflexivity. Qed.

(** The eleventh call on a session: twenty turns are stored, and the
    request carries the system prompt, the ten most recent of them and the
    new message.  The ten carry their timestamps, so the client fails on
    the body it is given. *)
Example eleventh_call_context :
  let run := chat_endpoint env_ok (ask "s1" "More") world10 in
  length (stored_turns "s1" world10) = 20%nat ∧
  map messages (sent run.2)
  = [system_message :: drop 10 (stored_turns "s1" world10) ++ [user_entry "More"]] ∧
  run.1 = Raise (HTTPException 500
    "Error processing chat: Error calling Groq API: Object of type datetime is not JSON serializable").
Proof. repeat split; vm_compute; reflexivity. Qed.

(** A timeout leaves the client as a 504 and the endpoint as a 500. *)
Example timeout_surfaces_as_500 :
  (get_chat_response env_timeout [user_entry "Hello"] world0).1
  = Raise (HTTPException 504 "Request timeout") ∧
  (chat_endpoint env_timeout (ask "s1" "Hello") world0).1
  = Raise (HTTPException 500 "Error processing chat: Request timeout").
Proof. split; vm_compute; reflexivity. Qed.

(** The [HTTPException] raised for a provider status other than 200 is
    raised inside the [try] of the client: it is caught there and leaves as
    a 500, which the endpoint wraps once more. *)
Example upstream_status_surfaces_as_500 :
  (get_chat_response env_busy [user_entry "Hello"] world0).1
  = Raise (HTTPException 500
             "Error calling Groq API: Groq API error: rate limit") ∧
  (chat_endpoint env_busy (ask "s1" "Hello") world0).1
  = Raise (HTTPException 500
             "Error processing chat: Error calling Groq API: Groq API error: rate limit").
Proof. split; vm_compute; reflexivity. Qed.

(** With the store down the chat call answers 500 and stores nothing, and
    the health check answers 503. *)
Example store_down :
  chat_endpoint env_down (ask "s1" "Hello") world0
  = (Raise (HTTPException 500 "Error processing chat: connection refused"),
     count_command world0) ∧
  (health_check env_down world0).1
  = Raise (HTTPException 503 "Database connection failed: connection refused").
Proof. split; vm_compute; reflexivity. Qed.

(** A completion whose content is [null] is no failure of the client: both
    turns are pushed, and the call then fails when [ChatResponse] refuses
    the value. *)
Example null_content_is_stored :
  let run := chat_endpoint env_null (ask "s1" "Hello") world0 in
  run.1 = Raise (HTTPException 500 "Error processing chat: str type expected") ∧
  stored_turns "s1" run.2
  = [turn "user" (PyStr "Hello") 1%nat; turn "assistant" PyNone 2%nat].
Proof. split; vm_compute; reflexivity. Qed.

(** * Reasoning about handlers *)

(** ** Rules for postconditions *)

Lemma ensures_weaken {A} (m : M A) w (Q Q' : Result A -> World -> Prop) :
  ensures m w Q -> (∀ r w', Q r w' -> Q' r w') -> ensures m w Q'.
Proof. unfold ensures. auto. Qed.

Lemma ensures_ret {A} (a : A) w (Q : Result A -> World -> Prop) :
  Q (Ok a) w -> ensures (mret a) w Q.
Proof. exact id. Qed.

Lemma ensures_raise {A} e w (Q : Result A -> World -> Prop) :
  Q (Raise e) w -> ensures (raise e) w Q.
Proof. exact id. Qed.

Lemma ensures_lift {A} (r : Result A) w (Q : Result A -> World -> Prop) :
  Q r w -> ensures (lift r) w Q.
Proof. exact id. Qed.

Lemma ensures_bind {A B} (m : M A) (f : A -> M B) w (Q : Result B -> World -> Prop) :
  ensures m w (λ r w1,
    match r with
    | Ok a => ensures (f a) w1 Q
    | Raise e => Q (Raise e) w1
    end) ->
  ensures (m ≫= f) w Q.
Proof.
  unfold ensures, mbind, M_bind.
  destruct (m w) as [[a|e] w1]; simpl; auto.
Qed.

Lemma ensures_bind_with {A B} (m : M A) (f : A -> M B) w
    (P : Result A -> World -> Prop) (Q : Result B -> World -> Prop) :
  ensures m w P ->
  (∀ r w1, m w = (r, w1) -> P r w1 ->
     match r with
     | Ok a => ensures (f a) w1 Q
     | Raise e => Q (Raise e) w1
     end) ->
  ensures (m ≫= f) w Q.
Proof.
  unfold ensures, mbind, M_bind. intros HP H.
  specialize (H (m w).1 (m w).2).
  destruct (m w) as [[a|e] w1]; simpl in *; auto.
Qed.

Lemma ensures_try_except {A} (body : M A) handler w (Q : Result A -> World -> Prop) :
  ensures body w (λ r w1,
    match r with
    | Ok a => Q (Ok a) w1
    | Raise e => ensures (handler e) w1 Q
    end) ->
  ensures (try_except body handler) w Q.
Proof.
  unfold ensures, try_except.
  destruct (body w) as [[a|e] w1]; simpl; auto.
Qed.

Lemma ensures_utcnow w (Q : Result Time -> World -> Prop) :
  Q (Ok (utc w))
    {| chats_collection := chats_collection w; utc := S (utc w);
       sent := sent w; db_commands := db_commands w |} ->
  ensures utcnow w Q.
Proof. exact id. Qed.

Lemma ensures_command env {A} (op : list Doc -> Result A * list Doc) w
    (Q : Result A -> World -> Prop) :
  (∀ msg, mongo_fault env (db_commands w) = Some msg ->
     Q (Raise (PyException "PyMongoError" msg)) (count_command w)) ->
  (mongo_fault env (db_commands w) = None ->
     Q (op (chats_collection w)).1
       (set_chats (op (chats_collection w)).2 (count_command w))) ->
  ensures (command env op) w Q.
Proof.
  unfold ensures, command. intros Hf Hn.
  destruct (mongo_fault env (db_commands w)) as [msg|]; simpl.
  - by apply Hf.
  - destruct (op (chats_collection w)) as [r c]. by apply Hn.
Qed.

Ltac run :=
  first
    [ apply ensures_bind
    | apply ensures_try_except
    | apply ensures_utcnow
    | apply ensures_command; [intros ? ?|intros ?]
    | apply ensures_ret
    | apply ensures_raise
    | apply ensures_lift ];
  simpl.

(** ** Lists and slices *)

Lemma find_app {A} (p : A -> bool) (l k : list A) :
  find p (l ++ k) = match find p l with Some x => Some x | None => find p k end.
Proof. induction l as [|x l IH]; simpl; [done|]. by destruct (p x). Qed.

Lemma last_n_length {A} n (l : list A) : length (last_n n l) = (length l `min` n)%nat.
Proof. unfold last_n. rewrite length_drop. lia. Qed.

Lemma last_n_short {A} n (l : list A) : (length l ≤ n)%nat -> last_n n l = l.
Proof. unfold last_n. intros H. by replace (length l - n)%nat with 0%nat by lia. Qed.

Lemma last_n_suffix {A} n (l : list A) : last_n n l `suffix_of` l.
Proof. apply suffix_drop. Qed.

Lemma last_n_app {A} n (older recent : list A) :
  length recent = n -> last_n n (older ++ recent) = recent.
Proof.
  intros <-. unfold last_n. rewrite length_app.
  replace (length older + length recent - length recent)%nat
    with (length older) by lia.
  by rewrite drop_app_length.
Qed.

Lemma find_middle {A} (p : A -> bool) pre x post :
  find p pre = None -> p x = true -> find p (pre ++ x :: post) = Some x.
Proof. intros Hpre Hx. rewrite find_app, Hpre. simpl. by rewrite Hx. Qed.

Lemma find_replace {A} (p : A -> bool) pre x x' post :
  p x = false -> p x' = false ->
  find p (pre ++ x' :: post) = find p (pre ++ x :: post).
Proof. intros Hx Hx'. rewrite !find_app. simpl. by rewrite Hx, Hx'. Qed.

Lemma find_none_filter {A} (p : A -> bool) l :
  find p l = None -> List.filter p l = [].
Proof.
  induction l as [|x l IH]; simpl; [done|]. destruct (p x); [done|]. apply IH.
Qed.

(** ** The store *)

Lemma push_each_and_set_fields turns now d d' :
  push_each_and_set turns now d = Ok d' -> same_session_fields d d'.
Proof.
  unfold push_each_and_set. intros H k Hm Hu.
  destruct (d !! "messages") as [[]|]; simplify_eq;
    by rewrite !lookup_insert_ne.
Qed.

Lemma push_each_and_set_turns turns now d d' :
  push_each_and_set turns now d = Ok d' ->
  d' !! "messages" = Some (PyList (doc_turns d ++ turns)) ∧
  d' !! "updated_at" = Some (PyTime now).
Proof.
  unfold push_each_and_set, doc_turns. intros H.
  destruct (d !! "messages") as [[]|]; simplify_eq;
    by rewrite lookup_insert_eq, lookup_insert_ne, lookup_insert_eq.
Qed.

Lemma same_session_fields_matches sid d d' :
  same_session_fields d d' -> matches sid d' = matches sid d.
Proof. intros H. unfold matches. by rewrite H. Qed.

Lemma same_session_fields_refl d : same_session_fields d d.
Proof. by intros k _ _. Qed.

Lemma same_records_refl (c : list Doc) : Forall2 same_session_fields c c.
Proof. induction c; constructor; auto using same_session_fields_refl. Qed.

(** What [update_first] returns: the collection itself when the filter
    selects nothing, and otherwise the collection with the first selected
    document replaced. *)
Lemma update_first_Ok sid f c c' :
  update_first sid f c = Ok c' ->
  (find (matches sid) c = None ∧ c' = c) ∨
  (∃ pre d post d',
     c = pre ++ d :: post ∧ c' = pre ++ d' :: post ∧
     find (matches sid) pre = None ∧ find (matches sid) c = Some d ∧
     matches sid d = true ∧ f d = Ok d').
Proof.
  revert c'. induction c as [|x c IH]; simpl; intros c' H.
  - left. by simplify_eq.
  - destruct (matches sid x) eqn:Hx.
    + right. destruct (f x) as [d'|e] eqn:Hf; simpl in H; simplify_eq.
      by exists [], x, c, d'.
    + destruct (update_first sid f c) as [c''|e]; simpl in H; simplify_eq.
      destruct (IH c'' eq_refl) as [[Hn ->]|(pre & d & post & d' & -> & -> & Hp & Hd & Hm & Hf)].
      * by left.
      * right. exists (x :: pre), d, post, d'. simpl. by rewrite Hx.
Qed.

Lemma update_first_app sid f c k :
  find (matches sid) c = None ->
  update_first sid f (c ++ k) = k' ← update_first sid f k; Ok (c ++ k').
Proof.
  induction c as [|x c IH]; simpl; intros Hc.
  - by destruct (update_first sid f k).
  - destruct (matches sid x); [done|]. rewrite (IH Hc).
    by destruct (update_first sid f k).
Qed.

(** A successful update leaves the records in place, each with the fields
    it had, but for [messages] and [updated_at] of the one it selects. *)
Lemma update_first_same_records sid turns now c c' :
  update_first sid (push_each_and_set turns now) c = Ok c' ->
  Forall2 same_session_fields c c'.
Proof.
  intros Hup.
  destruct (update_first_Ok _ _ _ _ Hup)
    as [[_ ->]|(pre & d & post & d' & -> & -> & _ & _ & _ & Hf)].
  - apply same_records_refl.
  - apply Forall2_app; [apply same_records_refl|].
    constructor; [|apply same_records_refl].
    by eapply push_each_and_set_fields.
Qed.

(** What has become of the record of [sid] after an update of [sid]. *)
Lemma update_first_session sid turns now c c' d :
  find (matches sid) c = Some d ->
  update_first sid (push_each_and_set turns now) c = Ok c' ->
  ∃ d', find (matches sid) c' = Some d' ∧
        push_each_and_set turns now d = Ok d'.
Proof.
  intros Hd Hup.
  destruct (update_first_Ok _ _ _ _ Hup)
    as [[Hn _]|(pre & d0 & post & d' & -> & -> & Hpre & Hd0 & Hm & Hf)];
    [congruence|].
  assert (d0 = d) as -> by congruence.
  exists d'. split; [|done]. apply find_middle; [done|].
  by rewrite (same_session_fields_matches sid d d')
    by by eapply push_each_and_set_fields.
Qed.

Lemma matches_new_chat_doc req t :
  matches (ChatRequest.session_id req) (new_chat_doc req t) = true.
Proof.
  unfold matches, new_chat_doc. rewrite lookup_insert_eq. simpl.
  by apply bool_decide_eq_true.
Qed.

Lemma doc_turns_new_chat_doc req t : doc_turns (new_chat_doc req t) = [].
Proof.
  unfold doc_turns, new_chat_doc.
  by rewrite lookup_insert_ne, lookup_insert_eq.
Qed.

(** ** The handlers, step by step *)

Section Handlers.
Context (env : Env).

Lemma get_or_create_spec req w :
  ensures (get_or_create env req) w (λ r w1,
    sent w1 = sent w ∧
    creates req (chats_collection w) (chats_collection w1) ∧
    match r with
    | Ok d =>
        session (ChatRequest.session_id req) w1 = Some d ∧
        doc_turns d = stored_turns (ChatRequest.session_id req) w
    | Raise _ => True
    end).
Proof.
  unfold get_or_create, find_one, insert_one, stored_turns, session.
  run. run.
  { repeat split. constructor. }
  destruct (find _ (chats_collection w)) as [d|] eqn:Hfind; simpl.
  - run. repeat split; auto. constructor.
  - run. run. run.
    + repeat split. constructor.
    + run. split; [done|]. split; [by constructor|]. split.
      * rewrite find_app, Hfind. simpl. by rewrite matches_new_chat_doc.
      * apply doc_turns_new_chat_doc.
Qed.

Lemma prepare_messages_Ok d message msgs :
  prepare_messages d message = Ok msgs ->
  msgs = last_n 10 (doc_turns d) ++ [user_entry message].
Proof.
  unfold prepare_messages, doc_turns, user_entry. simpl.
  destruct (d !! "messages") as [v|]; simpl; [|done].
  destruct v as [|b|z|q|s|t|l|m]; simpl; try done.
  - by intros [= <-].
  - destruct b; simpl; [done|]. by intros [= <-].
  - destruct (z =? 0); simpl; [|done]. by intros [= <-].
  - destruct (Qeq_bool q 0); simpl; [|done]. by intros [= <-].
  - case_bool_decide; simpl; [|done]. by intros [= <-].
  - case_bool_decide as Hl; simpl.
    + intros [= <-]. apply nil_length_inv in Hl. by subst.
    + by intros [= <-].
  - case_bool_decide; simpl; [|done]. by intros [= <-].
Qed.

Lemma open_call_spec req w :
  ensures (open_call env req) w (λ r w1,
    sent w1 = sent w ∧
    creates req (chats_collection w) (chats_collection w1) ∧
    match r with
    | Ok (user_message, messages_for_ai) =>
        (∃ t, user_message = turn "user" (PyStr (ChatRequest.message req)) t) ∧
        messages_for_ai =
          last_n 10 (stored_turns (ChatRequest.session_id req) w)
            ++ [user_entry (ChatRequest.message req)] ∧
        ∃ d, session (ChatRequest.session_id req) w1 = Some d ∧
             doc_turns d = stored_turns (ChatRequest.session_id req) w
    | Raise _ => True
    end).
Proof.
  unfold open_call. run.
  eapply ensures_weaken; [apply get_or_create_spec|].
  intros [d|e] w1 (Hs & Hc & Hd); simpl; [|done].
  destruct Hd as [Hd Ht]. run. run.
  destruct (prepare_messages d (ChatRequest.message req)) as [msgs|e] eqn:Hp;
    simpl; [|done].
  run. repeat split; eauto.
  rewrite <- Ht. by apply prepare_messages_Ok.
Qed.

(** The client leaves the store, the clock and the driver alone, hands at
    most one request to the HTTP client, and raises nothing but an
    [HTTPException] with status 500 or 504. *)
Lemma get_chat_response_spec msgs w :
  ensures (get_chat_response env msgs) w (λ r w1,
    chats_collection w1 = chats_collection w ∧
    (sent w1 = sent w ∨
     ∃ key, GROQ_API_KEY env = Some key ∧
            key_missing (GROQ_API_KEY env) = false ∧
            sent w1 = sent w ++ [groq_request key (system_message :: msgs)]) ∧
    match r with
    | Ok _ => True
    | Raise e => ∃ status detail,
        e = HTTPException status detail ∧ (status = 500 ∨ status = 504)
    end).
Proof.
  unfold get_chat_response.
  destruct (key_missing (GROQ_API_KEY env)) eqn:Hk.
  { run. repeat split; eauto. }
  destruct (GROQ_API_KEY env) as [key|] eqn:Hkey; [|done]. simpl.
  assert (∀ w1 : World, sent w1 = sent w ++ [groq_request key (system_message :: msgs)] ->
          sent w1 = sent w ∨
          ∃ key0, Some key = Some key0 ∧ key_missing (Some key) = false ∧
            sent w1 = sent w ++ [groq_request key0 (system_message :: msgs)])
    as Hsent by (intros w1 ->; eauto).
  run. run.
  unfold ensures, client_post, raise.
  destruct (groq env _ _) as [resp|msg|cls msg]; simpl.
  - destruct (status_code resp =? 200); simpl.
    + destruct (response_json resp ≫= _) as [v|e]; simpl.
      * repeat split; eauto.
      * destruct e; simpl; repeat split; eauto.
    + repeat split; eauto.
  - repeat split; eauto.
  - repeat split; eauto.
Qed.

Lemma get_chat_response_no_key msgs w :
  key_missing (GROQ_API_KEY env) = true ->
  get_chat_response env msgs w
  = (Raise (HTTPException 500 "Groq API key not configured"), w).
Proof. unfold get_chat_response. by intros ->. Qed.

End Handlers.

Arguments turn : simpl never.
Arguments new_chat_doc : simpl never.
Arguments system_message : simpl never.
Arguments groq_request : simpl never.
Arguments user_entry : simpl never.

Section Endpoint.
Context (env : Env).

Lemma chat_endpoint_appends req w :
  appends env req (chats_collection (open_call env req w).2)
    (chat_endpoint env req w).1
    (chats_collection (chat_endpoint env req w).2).
Proof.
  change (ensures (chat_endpoint env req) w (λ r w',
    appends env req (chats_collection (open_call env req w).2) r
      (chats_collection w'))).
  unfold chat_endpoint. run.
  eapply ensures_bind_with; [apply open_call_spec|].
  intros [[um msgs]|e] w1 -> (_ & _ & Hr); simpl; [|run; constructor].
  destruct Hr as ([t1 ->] & _ & _).
  eapply ensures_bind_with; [apply get_chat_response_spec|].
  intros [ai|e] w2 _ (<- & _ & _); simpl; [|run; constructor].
  run. run. run. unfold update_one. run.
  { run. constructor. }
  destruct (update_first _ _ (chats_collection w2)) as [c'|e] eqn:Hup; simpl;
    [|run; constructor].
  pose proof (appends_pair env req (chats_collection w2) _ _ _ _ _ Hup) as Hp.
  unfold reply in Hp. run.
  destruct (new_ChatResponse env ai (ChatRequest.session_id req));
    [done|by run].
Qed.

Lemma open_call_creates req w :
  creates req (chats_collection w) (chats_collection (open_call env req w).2).
Proof. apply (open_call_spec env req w). Qed.

(** The requests a call hands to the HTTP client: none, or the one built
    from the messages [open_call] prepared. *)
Lemma chat_endpoint_sent req w :
  sent (chat_endpoint env req w).2 = sent w ∨
  ∃ key um msgs w1,
    GROQ_API_KEY env = Some key ∧
    key_missing (GROQ_API_KEY env) = false ∧
    open_call env req w = (Ok (um, msgs), w1) ∧
    sent (chat_endpoint env req w).2
    = sent w ++ [groq_request key (system_message :: msgs)].
Proof.
  change (ensures (chat_endpoint env req) w (λ _ w',
    sent w' = sent w ∨
    ∃ key um msgs w1,
      GROQ_API_KEY env = Some key ∧
      key_missing (GROQ_API_KEY env) = false ∧
      open_call env req w = (Ok (um, msgs), w1) ∧
      sent w' = sent w ++ [groq_request key (system_message :: msgs)])).
  unfold chat_endpoint. run.
  eapply ensures_bind_with; [apply open_call_spec|].
  intros [[um msgs]|e] w1 Ho (Hs1 & _); simpl; [|run; by left].
  eapply ensures_bind_with; [apply get_chat_response_spec|].
  intros r w2 _ (_ & Hs2 & _).
  assert (∀ w', sent w' = sent w2 ->
            sent w' = sent w ∨
            ∃ key um' msgs' w1',
              GROQ_API_KEY env = Some key ∧
              key_missing (GROQ_API_KEY env) = false ∧
              open_call env req w = (Ok (um', msgs'), w1') ∧
              sent w' = sent w ++ [groq_request key (system_message :: msgs')])
    as Hcase.
  { intros w' ->. destruct Hs2 as [->|(key & Hk & Hm & ->)]; [by left|right].
    exists key, um, msgs, w1. by rewrite Hs1. }
  destruct r as [ai|e]; simpl; [|run; by apply Hcase].
  run. run. run. unfold update_one. run.
  { run. by apply Hcase. }
  destruct (update_first _ _ (chats_collection w2)) as [c'|e]; simpl;
    [|run; by apply Hcase].
  run. destruct (new_ChatResponse env ai (ChatRequest.session_id req));
    [|run]; by apply Hcase.
Qed.

End Endpoint.

(** ** The endpoint and the store *)

Lemma creates_stored_turns req w w1 sid :
  creates req (chats_collection w) (chats_collection w1) ->
  stored_turns sid w1 = stored_turns sid w.
Proof.
  unfold stored_turns, session. intros Hc.
  inversion Hc as [Heq|t Hnone Heq]; [done|].
  rewrite find_app. simpl.
  destruct (find (matches sid) (chats_collection w)) as [d|] eqn:Hfind; [done|].
  destruct (matches sid (new_chat_doc req t)); [|done].
  apply doc_turns_new_chat_doc.
Qed.

Lemma appends_same_records env req c r c' :
  appends env req c r c' -> Forall2 same_session_fields c c'.
Proof.
  intros [cause|t1 ai t2 t3 c'' Hup].
  - apply same_records_refl.
  - by eapply update_first_same_records.
Qed.

Lemma open_call_chats env req w :
  chats_collection (open_call env req w).2
  = chats_collection (get_or_create env req w).2.
Proof.
  unfold open_call, mbind, M_bind.
  destruct (get_or_create env req w) as [[d|e] w1]; simpl; [|done].
  by destruct (prepare_messages d (ChatRequest.message req)).
Qed.

Lemma get_or_create_absent env req w :
  session (ChatRequest.session_id req) w = None ->
  mongo_fault env (db_commands w) = None ->
  mongo_fault env (S (db_commands w)) = None ->
  get_or_create env req w
  = (Ok (new_chat_doc req (utc w)),
     {| chats_collection := chats_collection w ++ [new_chat_doc req (utc w)];
        utc := S (utc w);
        sent := sent w;
        db_commands := S (S (db_commands w)) |}).
Proof.
  unfold session. intros Hs Hf1 Hf2.
  unfold get_or_create, find_one, insert_one, command, mbind, M_bind.
  rewrite Hf1. simpl. rewrite Hs. simpl. by rewrite Hf2.
Qed.

(** The record of a stored session after a chat call that names it. *)
Lemma session_after_call env req w d :
  session (ChatRequest.session_id req) w = Some d ->
  ∃ d',
    session (ChatRequest.session_id req) (chat_endpoint env req w).2 = Some d' ∧
    same_session_fields d d'.
Proof.
  unfold session. intros Hd.
  assert (chats_collection (open_call env req w).2 = chats_collection w)
    as Hopen.
  { pose proof (open_call_creates env req w) as Hc.
    inversion Hc as [Heq|t Hnone Heq]; [done|congruence]. }
  pose proof (chat_endpoint_appends env req w) as Ha. rewrite Hopen in Ha.
  inversion Ha as [cause Hr Hc|t1 ai t2 t3 c' Hup Hr Hc].
  - exists d. split; [done|apply same_session_fields_refl].
  - destruct (update_first_session _ _ _ _ _ _ Hd Hup) as (d' & Hd' & Hf).
    exists d'. split; [done|]. by eapply push_each_and_set_fields.
Qed.



(** With a key, an answer with status 200 and a body of the expected form,
    the client hands over one request, the system prompt followed by the
    messages it was given, and returns the content of the first choice. *)
Lemma get_chat_response_200 env msgs w key resp body choice rest message content :
  GROQ_API_KEY env = Some key ->
  key ≠ "" ->
  groq env (length (sent w)) (groq_request key (system_message :: msgs))
  = Returned resp ->
  status_code resp = 200 ->
  json resp = Some (PyDict body) ->
  body !! "choices" = Some (PyList (PyDict choice :: rest)) ->
  choice !! "message" = Some (PyDict message) ->
  message !! "content" = Some content ->
  get_chat_response env msgs w
  = (Ok content, log_request (groq_request key (system_message :: msgs)) w).
Proof.
  intros Hkey Hne Hgroq Hstatus Hjson Hchoices Hmessage Hcontent.
  unfold get_chat_response. rewrite Hkey. simpl.
  rewrite bool_decide_eq_false_2 by done. simpl.
  unfold try_except, mbind, M_bind, client_post. simpl.
  rewrite Hgroq, Hstatus. simpl.
  unfold lift, response_json. rewrite Hjson. simpl.
  rewrite Hchoices. simpl. rewrite Hmessage. simpl. by rewrite Hcontent.
Qed.

(** The two failures of the provider the client tells apart: no answer in
    time, and an answer with a status other than 200. *)
Lemma get_chat_response_timeout env msgs w key msg :
  GROQ_API_KEY env = Some key ->
  key ≠ "" ->
  groq env (length (sent w)) (groq_request key (system_message :: msgs))
  = TimedOut msg ->
  get_chat_response env msgs w
  = (Raise (HTTPException 504 "Request timeout"),
     log_request (groq_request key (system_message :: msgs)) w).
Proof.
  intros Hkey Hne Hgroq.
  unfold get_chat_response. rewrite Hkey. simpl.
  rewrite bool_decide_eq_false_2 by done. simpl.
  unfold try_except, mbind, M_bind, client_post. simpl. by rewrite Hgroq.
Qed.

Lemma get_chat_response_status env msgs w key resp :
  GROQ_API_KEY env = Some key ->
  key ≠ "" ->
  groq env (length (sent w)) (groq_request key (system_message :: msgs))
  = Returned resp ->
  status_code resp ≠ 200 ->
  get_chat_response env msgs w
  = (Raise (HTTPException 500
              ("Error calling Groq API: " +:+
               str_exn env (HTTPException (status_code resp)
                              ("Groq API error: " +:+ text resp)))),
     log_request (groq_request key (system_message :: msgs)) w).
Proof.
  intros Hkey Hne Hgroq Hstatus.
  unfold get_chat_response. rewrite Hkey. simpl.
  rewrite bool_decide_eq_false_2 by done. simpl.
  unfold try_except, mbind, M_bind, client_post. simpl. rewrite Hgroq.
  by rewrite (proj2 (Z.eqb_neq _ _) Hstatus).
Qed.

(** ** Invariants of the store *)

Lemma session_shape_new_chat_doc req t : session_shape (new_chat_doc req t).
Proof.
  unfold session_shape, new_chat_doc. eexists _, [], _, _.
  split; [apply lookup_insert_eq|].
  split; [by rewrite lookup_insert_ne, lookup_insert_eq|].
  split; [constructor|].
  split; [by do 2 (rewrite lookup_insert_ne by done); rewrite lookup_insert_eq|].
  split; [by do 3 (rewrite lookup_insert_ne by done); rewrite lookup_singleton_eq|].
  do 3 (rewrite lookup_insert_ne by done). by rewrite lookup_singleton_ne.
Qed.

Lemma session_shape_push now d d' r1 c1 t1 r2 c2 t2 :
  session_shape d ->
  push_each_and_set [turn r1 c1 t1; turn r2 c2 t2] now d = Ok d' ->
  session_shape d'.
Proof.
  intros (sid & turns & info & created & Hsid & Hm & Hturns & Hinfo & Hc & _) Hp.
  pose proof (push_each_and_set_fields _ _ _ _ Hp) as Hsame.
  destruct (push_each_and_set_turns _ _ _ _ Hp) as [Hm' Hu'].
  unfold doc_turns in Hm'. rewrite Hm in Hm'.
  exists sid, (turns ++ [turn r1 c1 t1; turn r2 c2 t2]), info, created.
  split; [by rewrite Hsame|]. split; [done|]. split.
  { apply Forall_app. split; [done|].
    repeat constructor; unfold turn_shape; eauto. }
  split; [by rewrite Hsame|]. split; [by rewrite Hsame|].
  rewrite Hu'. split; [eauto|by destruct turns].
Qed.

Lemma matches_shape sid d :
  session_shape d ->
  matches sid d = true -> d !! "session_id" = Some (PyStr sid).
Proof.
  intros (sid' & turns & info & created & Hsid & _). unfold matches.
  rewrite Hsid. simpl. by intros ->%bool_decide_eq_true.
Qed.

Lemma same_records_filter sid c c' :
  Forall2 same_session_fields c c' ->
  length (List.filter (matches sid) c') = length (List.filter (matches sid) c).
Proof.
  induction 1 as [|d d' c c' Hd _ IH]; simpl; [done|].
  rewrite (same_session_fields_matches sid d d' Hd).
  destruct (matches sid d); simpl; by rewrite IH.
Qed.

Lemma creates_store_ok req c c1 :
  creates req c c1 -> store_ok c -> store_ok c1.
Proof.
  intros [|t Hnone] [Hshape Huniq]; [done|]. split.
  - apply Forall_app. split; [done|].
    repeat constructor. apply session_shape_new_chat_doc.
  - intros sid. rewrite List.filter_app, length_app. simpl.
    destruct (matches sid (new_chat_doc req t)) eqn:Hm; simpl.
    + pose proof (matches_shape _ _ (session_shape_new_chat_doc req t) Hm) as Hs.
      unfold new_chat_doc in Hs. rewrite lookup_insert_eq in Hs.
      injection Hs as <-. by rewrite (find_none_filter _ _ Hnone).
    + specialize (Huniq sid). lia.
Qed.

Lemma appends_store_ok env req c r c' :
  appends env req c r c' -> store_ok c -> store_ok c'.
Proof.
  intros [cause|t1 ai t2 t3 c'' Hup] [Hshape Huniq]; [done|]. split.
  - destruct (update_first_Ok _ _ _ _ Hup)
      as [[_ ->]|(pre & d & post & d' & -> & -> & _ & _ & _ & Hf)]; [done|].
    apply Forall_app in Hshape as [Hpre Hpost].
    apply Forall_cons in Hpost as [Hd Hpost].
    apply Forall_app. split; [done|]. constructor; [|done].
    by eapply session_shape_push.
  - intros sid.
    rewrite (same_records_filter sid c c'')
      by by eapply update_first_same_records.
    apply Huniq.
Qed.

Lemma chat_endpoint_store_ok env req w :
  store_ok (chats_collection w) ->
  store_ok (chats_collection (chat_endpoint env req w).2).
Proof.
  intros Hok.
  eapply appends_store_ok; [apply chat_endpoint_appends|].
  eapply creates_store_ok; [apply open_call_creates|done].
Qed.

Lemma store_ok_nil : store_ok [].
Proof. split; [constructor|]. intros sid. simpl. lia. Qed.

Lemma serve_cons env req calls w :
  serve env (req :: calls) w
  = ((chat_endpoint env req w).1 :: (serve env calls (chat_endpoint env req w).2).1,
     (serve env calls (chat_endpoint env req w).2).2).
Proof.
  simpl. destruct (chat_endpoint env req w) as [r w1]. simpl.
  by destruct (serve env calls w1).
Qed.



(** ** Entries of the provider message list *)

Lemma user_entry_shape message : spec_entry_shape (user_entry message).
Proof.
  unfold user_entry. eexists. split; [done|].
  rewrite dom_insert_L, dom_singleton_L. set_solver.
Qed.

Lemma system_message_shape : spec_entry_shape system_message.
Proof.
  unfold system_message. eexists. split; [done|].
  rewrite dom_insert_L, dom_singleton_L. set_solver.
Qed.

(** A stored turn is no such entry: it has its [timestamp]. *)
Lemma turn_not_entry_shape role content timestamp :
  ¬ spec_entry_shape (turn role content timestamp).
Proof.
  unfold turn. intros (d & [= <-] & Hdom).
  assert ("timestamp" ∈ dom (<["role":=PyStr role]>
            (<["content":=content]> ({["timestamp" := PyTime timestamp]} : Doc))))
    as Hin.
  { apply elem_of_dom. exists (PyTime timestamp).
    by rewrite !lookup_insert_ne, lookup_singleton_eq. }
  rewrite Hdom in Hin. set_solver.
Qed.

(** * Properties of the chat call *)

(** C1. When the invocation of the LLM client fails, whatever the reason,
    the call fails and appends no turn: every session's stored message
    sequence is what it was before the call, and the collection differs at
    most by the empty record of a session the call created. *)
Theorem failed_completion_appends_nothing
    env req w user_message messages_for_ai w1 e w2 :
  open_call env req w = (Ok (user_message, messages_for_ai), w1) ->
  get_chat_response env messages_for_ai w1 = (Raise e, w2) ->
  chat_endpoint env req w
  = (Raise (HTTPException 500 ("Error processing chat: " +:+ str_exn env e)), w2) ∧
  (∀ sid, stored_turns sid w2 = stored_turns sid w) ∧
  creates req (chats_collection w) (chats_collection w2).
Proof.
  intros Hopen Hllm.
  pose proof (open_call_creates env req w) as Hc. rewrite Hopen in Hc.
  pose proof (get_chat_response_spec env messages_for_ai w1) as Hs.
  unfold ensures in Hs. rewrite Hllm in Hs. simpl in *.
  destruct Hs as (Heq & _). rewrite <- Heq in Hc.
  split; [|split; [|done]].
  - unfold chat_endpoint, try_except, mbind, M_bind.
    rewrite Hopen. simpl. by rewrite Hllm.
  - intros sid. by eapply creates_stored_turns.
Qed.

(** The provider times out on the first call of a session: the call fails
    with 500 and the session, created by the call, holds no turn. *)
Lemma failed_completion_witness :
  ∃ w2,
    chat_endpoint env_timeout (ask "s1" "Hello") world0
    = (Raise (HTTPException 500
                ("Error processing chat: " +:+
                 str_exn env_timeout (HTTPException 504 "Request timeout"))),
       w2) ∧
    (∀ sid, stored_turns sid w2 = stored_turns sid world0) ∧
    creates (ask "s1" "Hello") (chats_collection world0) (chats_collection w2).
Proof.
  eexists.
  eapply (failed_completion_appends_nothing env_timeout (ask "s1" "Hello") world0);
    vm_compute; reflexivity.
Defined.

(** C2. The context a chat call sends to the LLM client is the last ten
    stored turns of the session, all of them when there are at most ten, in
    stored order and unchanged, followed by the new user message; the
    request handed to the HTTP client, when there is one, carries exactly
    these after the system prompt. *)
Theorem context_is_last_ten_turns env req w :
  let stored := stored_turns (ChatRequest.session_id req) w in
  let context := last_n 10 stored in
  let new_message := user_entry (ChatRequest.message req) in
  (∀ user_message messages_for_ai w1,
     open_call env req w = (Ok (user_message, messages_for_ai), w1) ->
     messages_for_ai = context ++ [new_message]) ∧
  (sent (chat_endpoint env req w).2 = sent w ∨
   ∃ key,
     sent (chat_endpoint env req w).2
     = sent w ++ [groq_request key (system_message :: context ++ [new_message])]) ∧
  (length context ≤ 10)%nat ∧
  context `suffix_of` stored ∧
  ((length stored ≤ 10)%nat -> context = stored) ∧
  (∀ older recent,
     stored = older ++ recent -> length recent = 10%nat -> context = recent).
Proof.
  intros stored context new_message.
  assert (∀ user_message messages_for_ai w1,
     open_call env req w = (Ok (user_message, messages_for_ai), w1) ->
     messages_for_ai = context ++ [new_message]) as Hopen.
  { intros um msgs w1 Ho.
    pose proof (open_call_spec env req w) as Hs. unfold ensures in Hs.
    rewrite Ho in Hs. simpl in Hs. by destruct Hs as (_ & _ & _ & -> & _). }
  split; [done|]. split; [|split; [|split; [|split]]].
  - destruct (chat_endpoint_sent env req w)
      as [->|(key & um & msgs & w1 & _ & _ & Ho & ->)]; [by left|right].
    exists key. by rewrite (Hopen _ _ _ Ho).
  - unfold context. rewrite last_n_length. lia.
  - apply last_n_suffix.
  - apply last_n_short.
  - intros older recent -> Hlen. by apply last_n_app.
Qed.

Lemma context_witness :
  ∃ user_message messages_for_ai w1,
    open_call env_ok (ask "s1" "And Python?") world1
    = (Ok (user_message, messages_for_ai), w1) ∧
    messages_for_ai
    = last_n 10 (stored_turns "s1" world1) ++ [user_entry "And Python?"].
Proof.
  eexists _, _, _. split; [vm_compute; reflexivity|].
  eapply (proj1 (context_is_last_ten_turns env_ok (ask "s1" "And Python?") world1)).
  vm_compute. reflexivity.
Defined.

(** C4. A failing chat call raises an [HTTPException] with status 500 whose
    detail says what went wrong; the health check is the one handler that
    answers a failure, that of the store ping, with 503. *)
Theorem chat_failure_is_500 env w :
  (∀ req e w',
     chat_endpoint env req w = (Raise e, w') ->
     ∃ cause,
       e = HTTPException 500 ("Error processing chat: " +:+ str_exn env cause)) ∧
  (∀ e w',
     health_check env w = (Raise e, w') ->
     ∃ cause,
       e = HTTPException 503 ("Database connection failed: " +:+ str_exn env cause)).
Proof.
  split.
  - intros req e w'. unfold chat_endpoint, try_except.
    match goal with
    | |- match ?run with _ => _ end = _ -> _ =>
        destruct run as [[resp|cause] w1]; [done|]
    end.
    unfold raise. intros [= <- <-]. by exists cause.
  - intros e w'. unfold health_check, try_except.
    match goal with
    | |- match ?run with _ => _ end = _ -> _ =>
        destruct run as [[resp|cause] w1]; [done|]
    end.
    unfold raise. intros [= <- <-]. by exists cause.
Qed.

Lemma chat_failure_witness :
  ∃ cause,
    HTTPException 500 "Error processing chat: Groq API key not configured"
    = HTTPException 500 ("Error processing chat: " +:+ str_exn env_nokey cause).
Proof.
  eapply (proj1 (chat_failure_is_500 env_nokey world0) (ask "s1" "Hello")).
  vm_compute. reflexivity.
Defined.

(** C5. Without an API key in the environment the client raises the
    configuration error before anything is handed to the HTTP client: the
    chat call fails, and the log of outbound requests is what it was. *)
Theorem missing_key_sends_nothing env req w :
  key_missing (GROQ_API_KEY env) = true ->
  (∀ messages w0,
     get_chat_response env messages w0
     = (Raise (HTTPException 500 "Groq API key not configured"), w0)) ∧
  (∃ detail, (chat_endpoint env req w).1 = Raise (HTTPException 500 detail)) ∧
  sent (chat_endpoint env req w).2 = sent w ∧
  (∀ user_message messages_for_ai w1,
     open_call env req w = (Ok (user_message, messages_for_ai), w1) ->
     chat_endpoint env req w
     = (Raise (HTTPException 500
                 ("Error processing chat: " +:+
                  str_exn env (HTTPException 500 "Groq API key not configured"))),
        w1)).
Proof.
  intros Hkey.
  assert (∀ user_message messages_for_ai w1,
     open_call env req w = (Ok (user_message, messages_for_ai), w1) ->
     chat_endpoint env req w
     = (Raise (HTTPException 500
                 ("Error processing chat: " +:+
                  str_exn env (HTTPException 500 "Groq API key not configured"))),
        w1)) as Hcall.
  { intros um msgs w1 Ho. unfold chat_endpoint, try_except, mbind, M_bind.
    rewrite Ho. simpl. by rewrite get_chat_response_no_key. }
  split; [|split; [|split; [|done]]].
  - intros messages w0. by apply get_chat_response_no_key.
  - destruct (open_call env req w) as [[[um msgs]|e] w1] eqn:Ho.
    + rewrite (Hcall _ _ _ eq_refl). simpl. eauto.
    + unfold chat_endpoint, try_except, mbind, M_bind. rewrite Ho. simpl. eauto.
  - destruct (chat_endpoint_sent env req w)
      as [->|(key & um & msgs & w1 & _ & Hk & _)]; [done|congruence].
Qed.

Lemma missing_key_witness :
  sent (chat_endpoint env_nokey (ask "s1" "Hello") world0).2 = sent world0.
Proof.
  apply (missing_key_sends_nothing env_nokey (ask "s1" "Hello") world0).
  reflexivity.
Defined.

(** C6. The first chat call that names a session no lookup finds inserts
    one record for it, with an empty message sequence and the recruiter
    metadata of the request (an empty dictionary when there is none), before
    the client is invoked; when the call ends the collection has that one
    record more.  A call that names a session already stored inserts
    nothing: the records stay in place, one for one. *)
Theorem first_call_creates_session env req w :
  let sid := ChatRequest.session_id req in
  let d := new_chat_doc req (utc w) in
  (session sid w = None ->
   mongo_fault env (db_commands w) = None ->
   mongo_fault env (S (db_commands w)) = None ->
   (get_or_create env req w).1 = Ok d ∧
   chats_collection (open_call env req w).2 = chats_collection w ++ [d] ∧
   d !! "session_id" = Some (PyStr sid) ∧
   d !! "messages" = Some (PyList []) ∧
   d !! "recruiter_info"
   = Some (PyDict (match ChatRequest.recruiter_info req with
                   | Some info => RecruiterInfo.dict info
                   | None => ∅
                   end)) ∧
   ∃ d', chats_collection (chat_endpoint env req w).2 = chats_collection w ++ [d'] ∧
         same_session_fields d d' ∧
         session sid (chat_endpoint env req w).2 = Some d') ∧
  (is_Some (session sid w) ->
   chats_collection (open_call env req w).2 = chats_collection w ∧
   Forall2 same_session_fields
     (chats_collection w) (chats_collection (chat_endpoint env req w).2)).
Proof.
  intros sid d. split.
  - intros Hs Hf1 Hf2.
    assert (chats_collection (open_call env req w).2 = chats_collection w ++ [d])
      as Hopen.
    { by rewrite open_call_chats, (get_or_create_absent env req w Hs Hf1 Hf2). }
    split; [by rewrite (get_or_create_absent env req w Hs Hf1 Hf2)|].
    split; [done|].
    split; [apply lookup_insert_eq|].
    split; [by unfold d, new_chat_doc; rewrite lookup_insert_ne, lookup_insert_eq|].
    split; [by unfold d, new_chat_doc;
              do 2 (rewrite lookup_insert_ne by done); rewrite lookup_insert_eq|].
    pose proof (chat_endpoint_appends env req w) as Ha. rewrite Hopen in Ha.
    unfold session in *.
    inversion Ha as [cause Hr Hc|t1 ai t2 t3 c' Hup Hr Hc].
    + exists d. split; [done|]. split; [apply same_session_fields_refl|].
      apply find_middle; [done|apply matches_new_chat_doc].
    + rewrite update_first_app in Hup by done. simpl in Hup.
      unfold d in Hup. rewrite matches_new_chat_doc in Hup. simpl in Hup.
      destruct (push_each_and_set _ _ _) as [d'|e] eqn:Hd'; simpl in Hup; [|done].
      injection Hup as <-. exists d'.
      pose proof (push_each_and_set_fields _ _ _ _ Hd') as Hsame.
      split; [done|]. split; [done|].
      apply find_middle; [done|].
      rewrite (same_session_fields_matches sid _ _ Hsame).
      apply matches_new_chat_doc.
  - intros [d0 Hd0]. unfold session in Hd0.
    assert (chats_collection (open_call env req w).2 = chats_collection w)
      as Hopen.
    { pose proof (open_call_creates env req w) as Hc.
      inversion Hc as [Heq|t Hnone Heq]; [done|]. fold sid in Hnone. congruence. }
    split; [done|].
    pose proof (chat_endpoint_appends env req w) as Ha. rewrite Hopen in Ha.
    by eapply appends_same_records.
Qed.

Lemma first_call_witness :
  ∃ d',
    chats_collection (chat_endpoint env_ok (ask "s1" "Hello") world0).2
    = chats_collection world0 ++ [d'] ∧
    same_session_fields (new_chat_doc (ask "s1" "Hello") (utc world0)) d' ∧
    session "s1" (chat_endpoint env_ok (ask "s1" "Hello") world0).2 = Some d'.
Proof.
  apply (proj1 (first_call_creates_session env_ok (ask "s1" "Hello") world0));
    reflexivity.
Defined.

(** C7. The second call on a session hands the provider the system prompt,
    then the two stored turns, then the new user message; the stored turns
    go out as they are stored, [timestamp] included, so the history entries
    are not of the shape [{role, content}]. *)
Theorem history_entries_carry_timestamp :
  let history :=
    [turn "user" (PyStr "Hello") 1%nat; turn "assistant" answer 2%nat] in
  stored_turns "s1" world1 = history ∧
  map messages (sent (chat_endpoint env_ok (ask "s1" "And Python?") world1).2)
  = [ [system_message; user_entry "Hello"];
      [system_message] ++ history ++ [user_entry "And Python?"] ] ∧
  ¬ Forall spec_entry_shape history.
Proof.
  split; [vm_compute; reflexivity|]. split; [vm_compute; reflexivity|].
  intros Hall. apply Forall_cons in Hall as [Hturn _].
  by apply turn_not_entry_shape in Hturn.
Qed.

(** C8, as the specification has it, fails: a first call that ends in an
    error of the client leaves a record without [updated_at]. *)
Lemma created_record_lacks_updated_at :
  ¬ Forall spec_record_shape
      (chats_collection (chat_endpoint env_nokey (ask "s1" "Hello") world0).2).
Proof.
  intros Hall.
  assert (chats_collection (chat_endpoint env_nokey (ask "s1" "Hello") world0).2
          = [new_chat_doc (ask "s1" "Hello") 0%nat]) as Heq by (vm_compute; reflexivity).
  rewrite Heq in Hall. apply Forall_cons in Hall as [Hd _].
  destruct Hd as (sid & turns & info & created & updated & _ & _ & _ & _ & _ & Hu).
  vm_compute in Hu. discriminate Hu.
Qed.

(** C8, as the code has it.  Every record the service has stored carries
    [session_id] (no two records share one), [messages] (a list of turns
    [{role, content, timestamp}]), [recruiter_info] and [created_at];
    [updated_at] is absent from a record to which nothing has been appended
    yet, and is a time on every record that holds turns. *)
Theorem stored_records_keep_shape env calls w :
  store_ok (chats_collection w) ->
  store_ok (chats_collection (serve env calls w).2).
Proof.
  revert w. induction calls as [|req calls IH]; intros w Hok; [done|].
  rewrite serve_cons. simpl. apply IH. by apply chat_endpoint_store_ok.
Qed.

Lemma stored_records_witness :
  store_ok
    (chats_collection
       (serve env_timeout [ask "s1" "Hello"; ask "s2" "Hi"] world0).2).
Proof.
  apply (stored_records_keep_shape env_timeout
           [ask "s1" "Hello"; ask "s2" "Hi"] world0).
  apply store_ok_nil.
Defined.

(** C9. A chat call on a session that is already stored leaves its
    [recruiter_info] as it is, whatever the request carries, and with it
    every field of the record other than [messages] and [updated_at]. *)
Theorem existing_session_keeps_fields env req w d :
  session (ChatRequest.session_id req) w = Some d ->
  ∃ d',
    session (ChatRequest.session_id req) (chat_endpoint env req w).2 = Some d' ∧
    d' !! "recruiter_info" = d !! "recruiter_info" ∧
    d' !! "session_id" = d !! "session_id" ∧
    d' !! "created_at" = d !! "created_at" ∧
    same_session_fields d d'.
Proof.
  intros Hd.
  destruct (session_after_call env req w d Hd) as (d' & Hd' & Hsame).
  exists d'. split; [done|]. by rewrite !Hsame.
Qed.

Lemma existing_session_witness :
  let req :=
    ChatRequest.Build "And Python?" "s1"
      (Some (RecruiterInfo.Build (Some "ACME") None (Some "Ada"))) in
  ∃ d d',
    session "s1" world1 = Some d ∧
    session "s1" (chat_endpoint env_ok req world1).2 = Some d' ∧
    d' !! "recruiter_info" = d !! "recruiter_info" ∧
    d !! "recruiter_info" = Some (PyDict ∅).
Proof.
  intros req. eexists.
  destruct (existing_session_keeps_fields env_ok req world1 _ eq_refl)
    as (d' & Hd' & Hinfo & _).
  exists d'. split; [reflexivity|]. split; [exact Hd'|].
  split; [exact Hinfo|]. vm_compute. reflexivity.
Defined.

(** C10. The response of a successful chat call carries the session id of
    the request, unchanged. *)
Theorem response_echoes_session_id env req w resp w' :
  chat_endpoint env req w = (Ok resp, w') ->
  ChatResponse.session_id resp = ChatRequest.session_id req.
Proof.
  intros Hcall.
  pose proof (chat_endpoint_appends env req w) as Ha.
  rewrite Hcall in Ha. simpl in Ha.
  inversion Ha as [|t1 ai t2 t3 c' Hup Hreply Hc]. revert Hreply.
  unfold reply, new_ChatResponse.
  destruct ai; try destruct (coerce_str env _); intros; by simplify_eq.
Qed.

Lemma response_echo_witness :
  ChatResponse.session_id
    (ChatResponse.Build "I have 5 years of Python experience." "s1")
  = ChatRequest.session_id (ask "s1" "Hello").
Proof.
  apply (response_echoes_session_id env_ok (ask "s1" "Hello") world0 _ world1).
  vm_compute. reflexivity.
Defined.

(** * Further properties *)

(** ** More on the handlers *)

(** The client touches neither the driver nor the clock. *)
Lemma get_chat_response_frame env msgs w :
  db_commands (get_chat_response env msgs w).2 = db_commands w ∧
  utc (get_chat_response env msgs w).2 = utc w.
Proof.
  change (ensures (get_chat_response env msgs) w (λ _ w1,
    db_commands w1 = db_commands w ∧ utc w1 = utc w)).
  unfold get_chat_response.
  destruct (key_missing (GROQ_API_KEY env)); [by run|].
  run. run. unfold ensures, client_post, raise.
  destruct (groq env _ _) as [resp|msg|cls msg]; simpl; [|done|done].
  destruct (status_code resp =? 200); simpl; [|done].
  destruct (response_json resp ≫= _) as [v|e]; simpl; [done|].
  by destruct e.
Qed.

(** What [get_or_create] hands over is the record a lookup now finds:
    the one that was stored, or the one just inserted. *)
Lemma get_or_create_found env req w d w1 :
  get_or_create env req w = (Ok d, w1) ->
  session (ChatRequest.session_id req) w1 = Some d ∧
  sent w1 = sent w ∧
  ((session (ChatRequest.session_id req) w = Some d ∧
    chats_collection w1 = chats_collection w ∧
    db_commands w1 = S (db_commands w)) ∨
   (session (ChatRequest.session_id req) w = None ∧
    d = new_chat_doc req (utc w) ∧
    chats_collection w1 = chats_collection w ++ [d] ∧
    db_commands w1 = S (S (db_commands w)))).
Proof.
  unfold get_or_create, find_one, insert_one, command, session, mbind, M_bind.
  destruct (mongo_fault env (db_commands w)); simpl; [done|].
  destruct (find _ (chats_collection w)) as [d0|] eqn:Hfind; simpl.
  - intros [= <- <-]. simpl. rewrite Hfind. split; [done|]. split; [done|].
    by left.
  - destruct (mongo_fault env (S (db_commands w))); simpl; [done|].
    intros [= <- <-]. simpl. split; [|split; [done|right; done]].
    rewrite find_app, Hfind. simpl. by rewrite matches_new_chat_doc.
Qed.

(** When the body reaches the client, the record of the session is in the
    store and the messages for the model were built from it. *)
Lemma open_call_ready env req w user_message messages_for_ai w1 :
  open_call env req w = (Ok (user_message, messages_for_ai), w1) ->
  ∃ d,
    session (ChatRequest.session_id req) w1 = Some d ∧
    prepare_messages d (ChatRequest.message req) = Ok messages_for_ai ∧
    (∃ t, user_message = turn "user" (PyStr (ChatRequest.message req)) t) ∧
    sent w1 = sent w ∧
    (S (db_commands w) ≤ db_commands w1 ≤ S (S (db_commands w)))%nat ∧
    ((session (ChatRequest.session_id req) w = Some d ∧
      chats_collection w1 = chats_collection w) ∨
     (session (ChatRequest.session_id req) w = None ∧
      (∃ t, d = new_chat_doc req t) ∧
      chats_collection w1 = chats_collection w ++ [d])).
Proof.
  unfold open_call, mbind at 1, M_bind.
  destruct (get_or_create env req w) as [[d|e] w0] eqn:Hget; [|done].
  apply get_or_create_found in Hget as (Hd & Hsent & Hcase).
  unfold mbind, M_bind, utcnow, lift. simpl.
  destruct (prepare_messages d (ChatRequest.message req)) as [msgs|e] eqn:Hp;
    simpl; [|done].
  intros [= <- <- <-]. exists d. simpl.
  split; [done|]. split; [done|].
  split; [eauto|].
  split; [done|].
  destruct Hcase as [(Hs & Hc & Hn)|(Hs & Hnew & Hc & Hn)].
  - split; [lia|]. by left.
  - split; [lia|]. right. eauto.
Qed.

(** The two ways a chat call ends: it raises [chat_error] and leaves the
    collection as it was when the client was invoked, or it has pushed the
    exchange and answers with what [ChatResponse] makes of the completion. *)
Lemma chat_endpoint_cases env req w :
  (∃ cause,
     (chat_endpoint env req w).1 = Raise (chat_error env cause) ∧
     chats_collection (chat_endpoint env req w).2
     = chats_collection (open_call env req w).2) ∨
  (∃ um msgs w1 ai w2 t2 t3,
     open_call env req w = (Ok (um, msgs), w1) ∧
     get_chat_response env msgs w1 = (Ok ai, w2) ∧
     mongo_fault env (db_commands w1) = None ∧
     update_first (ChatRequest.session_id req)
       (push_each_and_set [um; turn "assistant" ai t2] t3)
       (chats_collection w1)
     = Ok (chats_collection (chat_endpoint env req w).2) ∧
     sent (chat_endpoint env req w).2 = sent w2 ∧
     db_commands (chat_endpoint env req w).2 = S (db_commands w1) ∧
     (chat_endpoint env req w).1 = reply env ai (ChatRequest.session_id req)).
Proof.
  destruct (open_call env req w) as [[[um msgs]|e] w1] eqn:Ho.
  2:{ left. exists e. unfold chat_endpoint, try_except, mbind, M_bind.
      by rewrite Ho. }
  pose proof (get_chat_response_spec env msgs w1) as Hspec.
  pose proof (get_chat_response_frame env msgs w1) as [Hcmd _].
  unfold ensures in Hspec.
  destruct (get_chat_response env msgs w1) as [[ai|e] w2] eqn:Hl; simpl in *;
    destruct Hspec as (Hchats & _).
  2:{ left. exists e. unfold chat_endpoint, try_except, mbind, M_bind.
      rewrite Ho. simpl. by rewrite Hl. }
  unfold chat_endpoint, try_except, mbind, M_bind. rewrite Ho. simpl.
  rewrite Hl. simpl.
  unfold update_one, command. simpl. rewrite Hcmd.
  destruct (mongo_fault env (db_commands w1)) as [msg|] eqn:Hfault; simpl.
  { left. by exists (PyException "PyMongoError" msg). }
  rewrite Hchats.
  destruct (update_first _ _ (chats_collection w1)) as [c'|e] eqn:Hup; simpl.
  2:{ left. by exists e. }
  right. exists um, msgs, w1, ai, w2, (utc w2), (S (utc w2)).
  split; [done|]. split; [done|]. split; [done|].
  unfold reply, lift.
  destruct (new_ChatResponse env ai (ChatRequest.session_id req)); simpl;
    by rewrite Hup.
Qed.

(** ** The client *)

Lemma key_present key : key_missing (Some key) = false ↔ key ≠ "".
Proof.
  unfold key_missing. simpl. rewrite negb_involutive.
  split; [by intros H%bool_decide_eq_false|by intros H; apply bool_decide_eq_false].
Qed.

Lemma getitem_Ok v key x :
  getitem v key = Ok x ↔ ∃ d : Doc, v = PyDict d ∧ d !! key = Some x.
Proof.
  split.
  - destruct v; simpl; try done. destruct (d !! key) eqn:Hk; [|done].
    intros [= <-]. eauto.
  - intros (d & -> & Hk). simpl. by rewrite Hk.
Qed.

(** The path [result["choices"][0]["message"]["content"]] (line 127)
    leads somewhere only through an object, a list that starts with an
    object, and an object: the first character of a string has no
    [message]. *)
Lemma completion_content result v :
  (choices ← getitem result "choices";
   choice ← getitem0 choices;
   message ← getitem choice "message";
   getitem message "content") = Ok v ↔
  ∃ (body choice message : Doc) rest,
    result = PyDict body ∧
    body !! "choices" = Some (PyList (PyDict choice :: rest)) ∧
    choice !! "message" = Some (PyDict message) ∧
    message !! "content" = Some v.
Proof.
  unfold mbind, Result_bind. split.
  - destruct (getitem result "choices") as [choices|e] eqn:Hc; [|done].
    apply getitem_Ok in Hc as (body & -> & Hchoices).
    destruct choices as [| | | |s| |l|]; simpl; try done.
    { destruct s; simpl; done. }
    destruct l as [|c rest]; simpl; [done|].
    destruct (getitem c "message") as [m|e] eqn:Hm; [|done].
    apply getitem_Ok in Hm as (choice & -> & Hmessage).
    intros (message & -> & Hcontent)%getitem_Ok.
    by exists body, choice, message, rest.
  - intros (body & choice & message & rest & -> & Hchoices & Hmessage & Hcontent).
    simpl. rewrite Hchoices. simpl. rewrite Hmessage. simpl. by rewrite Hcontent.
Qed.

(** What a value returned by the client tells. *)
Lemma get_chat_response_Ok env msgs w v w' :
  get_chat_response env msgs w = (Ok v, w') ->
  ∃ key resp (body choice message : Doc) rest,
    GROQ_API_KEY env = Some key ∧
    key ≠ "" ∧
    groq env (length (sent w)) (groq_request key (system_message :: msgs))
    = Returned resp ∧
    status_code resp = 200 ∧
    json resp = Some (PyDict body) ∧
    body !! "choices" = Some (PyList (PyDict choice :: rest)) ∧
    choice !! "message" = Some (PyDict message) ∧
    message !! "content" = Some v ∧
    w' = log_request (groq_request key (system_message :: msgs)) w.
Proof.
  unfold get_chat_response.
  destruct (GROQ_API_KEY env) as [key|] eqn:Hkey; [|done].
  destruct (key_missing (Some key)) eqn:Hmiss; [done|].
  apply key_present in Hmiss. simpl.
  unfold try_except, mbind at 1, M_bind, client_post.
  destruct (groq env _ _) as [resp|msg|cls msg] eqn:Hgroq; simpl; [|done|done].
  destruct (status_code resp =? 200) eqn:Hstatus; simpl; [|done].
  apply Z.eqb_eq in Hstatus. unfold lift, response_json.
  destruct (json resp) as [result|] eqn:Hjson; simpl; [|done].
  destruct (getitem result "choices" ≫= _) as [content|e] eqn:Hpath;
    [|by destruct e].
  apply completion_content
    in Hpath as (body & choice & message & rest & -> & Hchoices & Hmessage & Hcontent).
  intros [= <- <-].
  exists key, resp, body, choice, message, rest. by repeat split.
Qed.

(** X1. The client returns a value exactly when a key is configured, the
    provider answers the one request with status 200, the body decodes to an
    object whose [choices] is a list starting with an object that has a
    [message] object with a [content]; the value is that content, and the
    request, the system prompt followed by the messages given, is the only
    thing the call leaves behind. *)
Theorem client_answers_iff env msgs w v w' :
  get_chat_response env msgs w = (Ok v, w') ↔
  ∃ key resp (body choice message : Doc) rest,
    GROQ_API_KEY env = Some key ∧
    key ≠ "" ∧
    groq env (length (sent w)) (groq_request key (system_message :: msgs))
    = Returned resp ∧
    status_code resp = 200 ∧
    json resp = Some (PyDict body) ∧
    body !! "choices" = Some (PyList (PyDict choice :: rest)) ∧
    choice !! "message" = Some (PyDict message) ∧
    message !! "content" = Some v ∧
    w' = log_request (groq_request key (system_message :: msgs)) w.
Proof.
  split.
  - apply get_chat_response_Ok.
  - intros (key & resp & body & choice & message & rest & Hkey & Hne & Hgroq
            & Hstatus & Hjson & Hchoices & Hmessage & Hcontent & ->).
    by eapply get_chat_response_200.
Qed.

Lemma client_answers_witness :
  get_chat_response env_ok [user_entry "Hello"] world0
  = (Ok answer,
     log_request
       (groq_request "gsk_test" [system_message; user_entry "Hello"]) world0).
Proof.
  apply (client_answers_iff env_ok [user_entry "Hello"] world0).
  eexists "gsk_test", _, _, _, _, _.
  repeat split; [done|vm_compute; reflexivity..].
Defined.






(** ** Outbound requests *)

Lemma chat_endpoint_request env req w :
  sent (chat_endpoint env req w).2 = sent w ∨
  ∃ r, sent (chat_endpoint env req w).2 = sent w ++ [r] ∧
       service_request env [req] r.
Proof.
  destruct (chat_endpoint_sent env req w)
    as [->|(key & um & msgs & w1 & Hkey & Hmiss & Ho & ->)]; [by left|right].
  eexists. split; [done|].
  pose proof (open_call_spec env req w) as Hs. unfold ensures in Hs.
  rewrite Ho in Hs. simpl in Hs. destruct Hs as (_ & _ & _ & -> & _).
  exists key, (last_n 10 (stored_turns (ChatRequest.session_id req) w)), req.
  split; [done|]. rewrite Hkey in Hmiss. apply key_present in Hmiss.
  split; [done|]. split; [by apply list_elem_of_singleton|].
  split; [|done]. rewrite last_n_length. lia.
Qed.

Lemma service_request_mono env calls calls' r :
  calls ⊆ calls' -> service_request env calls r -> service_request env calls' r.
Proof.
  intros Hsub (key & context & req & Hkey & Hne & Hin & Hlen & ->).
  exists key, context, req. repeat split; auto.
Qed.

Lemma service_request_size env calls r :
  service_request env calls r -> (length (messages r) ≤ 12)%nat.
Proof.
  intros (key & context & req & _ & _ & _ & Hlen & ->).
  unfold groq_request. simpl. rewrite length_app. simpl. lia.
Qed.

(** X3. A run of chat calls hands the HTTP client at most one request per
    call, never a second attempt; each request is built for one of the
    calls, with the key of the environment and the fixed parameters, and
    carries the system prompt first, the message of that call last and at
    most ten entries in between, twelve messages at most. *)
Theorem outbound_requests env calls w :
  ∃ new,
    sent (serve env calls w).2 = sent w ++ new ∧
    (length new ≤ length calls)%nat ∧
    Forall (service_request env calls) new ∧
    Forall (λ r, length (messages r) ≤ 12)%nat new.
Proof.
  assert (∃ new,
    sent (serve env calls w).2 = sent w ++ new ∧
    (length new ≤ length calls)%nat ∧
    Forall (service_request env calls) new) as (new & Hsent & Hlen & Hall).
  { revert w. induction calls as [|req calls IH]; intros w.
    - exists []. simpl. by rewrite app_nil_r.
    - rewrite serve_cons. simpl.
      destruct (IH (chat_endpoint env req w).2) as (new & Hsent & Hlen & Hall).
      assert (Forall (service_request env (req :: calls)) new) as Hall'.
      { eapply Forall_impl; [done|]. intros r.
        apply service_request_mono. intros x Hx. by apply list_elem_of_further. }
      destruct (chat_endpoint_request env req w) as [Heq|(r & Heq & Hr)];
        rewrite Heq in Hsent.
      + exists new. split; [done|]. split; [lia|done].
      + exists (r :: new). split; [by rewrite Hsent, <- app_assoc|].
        split; [simpl; lia|]. constructor; [|done].
        eapply service_request_mono; [|done].
        intros x ->%list_elem_of_singleton. apply list_elem_of_here. }
  exists new. split; [done|]. split; [done|]. split; [done|].
  eapply Forall_impl; [done|]. apply service_request_size.
Qed.

(** ** The health check *)

(** X4. The health check sends one ping and nothing else: it leaves the
    collection and the log of outbound requests as they are, answers
    [healthy] with the time of the answer when the ping goes through, and
    raises 503 with the driver's error when it does not. *)
Theorem health_check_pings_only env w :
  chats_collection (health_check env w).2 = chats_collection w ∧
  sent (health_check env w).2 = sent w ∧
  db_commands (health_check env w).2 = S (db_commands w) ∧
  match mongo_fault env (db_commands w) with
  | None => (health_check env w).1 = Ok ("healthy", utc w)
  | Some msg =>
      (health_check env w).1
      = Raise (HTTPException 503
                 ("Database connection failed: " +:+
                  str_exn env (PyException "PyMongoError" msg)))
  end.
Proof.
  unfold health_check, try_except, ping, command, mbind, M_bind.
  by destruct (mongo_fault env (db_commands w)).
Qed.

(** ** Sessions *)

(** X9. Resolving a session twice is resolving it once: after
    [get_or_create] has returned a record, a second lookup for the same id,
    whatever recruiter metadata comes with it, returns that record and
    inserts nothing. *)
Theorem get_or_create_again env req req' w d w1 :
  get_or_create env req w = (Ok d, w1) ->
  ChatRequest.session_id req' = ChatRequest.session_id req ->
  mongo_fault env (db_commands w1) = None ->
  get_or_create env req' w1 = (Ok d, count_command w1).
Proof.
  intros Hget Hsid Hfault.
  apply get_or_create_found in Hget as (Hd & _). unfold session in Hd.
  unfold get_or_create, find_one, command, mbind, M_bind.
  rewrite Hfault, Hsid. simpl. rewrite Hd. simpl.
  by destruct w1.
Qed.

Lemma get_or_create_witness :
  let req' :=
    ChatRequest.Build "Hi" "s1"
      (Some (RecruiterInfo.Build (Some "ACME") None None)) in
  let w1 := (get_or_create env_ok (ask "s1" "Hello") world0).2 in
  get_or_create env_ok req' w1
  = (Ok (new_chat_doc (ask "s1" "Hello") 0%nat), count_command w1).
Proof.
  apply (get_or_create_again env_ok (ask "s1" "Hello") _ world0); reflexivity.
Defined.

Lemma grows_refl d : grows d d.
Proof. split; [apply same_session_fields_refl|done]. Qed.

Lemma grows_trans d1 d2 d3 : grows d1 d2 -> grows d2 d3 -> grows d1 d3.
Proof.
  intros [Hf12 Hp12] [Hf23 Hp23]. split; [|by etrans].
  intros k Hm Hu. by rewrite Hf23, Hf12.
Qed.

Lemma push_each_and_set_grows turns now d d' :
  push_each_and_set turns now d = Ok d' -> grows d d'.
Proof.
  intros Hp. split; [by eapply push_each_and_set_fields|].
  destruct (push_each_and_set_turns _ _ _ _ Hp) as [Hm _].
  unfold doc_turns at 2. rewrite Hm. by apply prefix_app_r.
Qed.

Lemma find_replaced {A} (p : A -> bool) pre x x' post d :
  p x' = p x ->
  find p (pre ++ x :: post) = Some d ->
  ∃ d', find p (pre ++ x' :: post) = Some d' ∧ (d' = d ∨ (d = x ∧ d' = x')).
Proof.
  intros Hp. rewrite !find_app. simpl. rewrite Hp.
  destruct (find p pre); [by eauto|].
  destruct (p x); [|by eauto].
  intros [= <-]. eauto.
Qed.

(** The record of a session after a chat call, on whatever session. *)
Lemma session_grows env req w sid d :
  session sid w = Some d ->
  ∃ d', session sid (chat_endpoint env req w).2 = Some d' ∧ grows d d'.
Proof.
  unfold session. intros Hd.
  assert (find (matches sid) (chats_collection (open_call env req w).2) = Some d)
    as Hd1.
  { pose proof (open_call_creates env req w) as Hc.
    inversion Hc as [Heq|t Hnone Heq]; [congruence|].
    by rewrite find_app, Hd. }
  pose proof (chat_endpoint_appends env req w) as Ha.
  inversion Ha as [cause Hr Hc|t1 ai t2 t3 c' Hup Hr Hc].
  - exists d. split; [congruence|apply grows_refl].
  - destruct (update_first_Ok _ _ _ _ Hup)
      as [[_ ->]|(pre & d0 & post & d0' & Hpre & -> & _ & _ & _ & Hf)].
    { exists d. split; [done|apply grows_refl]. }
    rewrite Hpre in Hd1.
    pose proof (push_each_and_set_grows _ _ _ _ Hf) as Hg.
    destruct (find_replaced (matches sid) pre d0 d0' post d) as (d' & Hd' & Hcase);
      [by apply same_session_fields_matches, Hg|done|].
    exists d'. split; [done|].
    destruct Hcase as [->|[-> ->]]; [apply grows_refl|done].
Qed.

Lemma chat_endpoint_length env req w :
  (length (chats_collection w)
   ≤ length (chats_collection (chat_endpoint env req w).2))%nat.
Proof.
  pose proof (appends_same_records _ _ _ _ _ (chat_endpoint_appends env req w))
    as Hlen%Forall2_length.
  rewrite <- Hlen.
  pose proof (open_call_creates env req w) as Hc.
  inversion Hc as [Heq|t Hnone Heq]; [done|]. rewrite length_app. lia.
Qed.

(** X5. The history is append-only: over any run of chat calls, answered
    or failed, no record leaves the collection, a session that is found
    stays found, its record keeps every field but [messages] and
    [updated_at], and the turns it held are the beginning of the turns it
    holds afterwards. *)
Theorem history_is_append_only env calls w :
  (∀ sid d,
     session sid w = Some d ->
     ∃ d', session sid (serve env calls w).2 = Some d' ∧ grows d d') ∧
  (∀ sid,
     stored_turns sid w `prefix_of` stored_turns sid (serve env calls w).2) ∧
  (length (chats_collection w)
   ≤ length (chats_collection (serve env calls w).2))%nat.
Proof.
  assert (∀ sid d,
     session sid w = Some d ->
     ∃ d', session sid (serve env calls w).2 = Some d' ∧ grows d d') as Hgrow.
  { revert w. induction calls as [|req calls IH]; intros w sid d Hd.
    - exists d. split; [done|apply grows_refl].
    - rewrite serve_cons. simpl.
      destruct (session_grows env req w sid d Hd) as (d1 & Hd1 & Hg1).
      destruct (IH _ sid d1 Hd1) as (d' & Hd' & Hg').
      exists d'. split; [done|]. by eapply grows_trans. }
  split; [done|]. split.
  - intros sid. unfold stored_turns at 1.
    destruct (session sid w) as [d|] eqn:Hd; [|apply prefix_nil].
    destruct (Hgrow sid d Hd) as (d' & Hd' & _ & Hp).
    unfold stored_turns. by rewrite Hd'.
  - clear Hgrow. revert w. induction calls as [|req calls IH]; intros w; [done|].
    rewrite serve_cons. simpl. etrans; [apply chat_endpoint_length|apply IH].
Qed.

(** ** Dialogues *)

Lemma dialogue_app turns text t1 ai t2 :
  dialogue turns ->
  dialogue (turns ++ [turn "user" (PyStr text) t1; turn "assistant" ai t2]).
Proof.
  induction 1 as [|text' t1' ai' t2' rest _ IH]; simpl.
  - repeat constructor.
  - by constructor.
Qed.

Lemma dialogue_even turns : dialogue turns -> Nat.Even (length turns).
Proof.
  induction 1 as [|text t1 ai t2 rest _ [n IH]]; [by exists 0%nat|].
  exists (S n). simpl. lia.
Qed.

Lemma creates_dialogues req c c1 :
  creates req c c1 -> holds_dialogues c -> holds_dialogues c1.
Proof.
  intros [|t Hnone] Hall; [done|].
  apply Forall_app. split; [done|]. constructor; [|constructor].
  rewrite doc_turns_new_chat_doc. constructor.
Qed.

Lemma appends_dialogues env req c r c' :
  appends env req c r c' -> holds_dialogues c -> holds_dialogues c'.
Proof.
  intros [cause|t1 ai t2 t3 c'' Hup] Hall; [done|].
  destruct (update_first_Ok _ _ _ _ Hup)
    as [[_ ->]|(pre & d & post & d' & -> & -> & _ & _ & _ & Hf)]; [done|].
  apply Forall_app in Hall as [Hpre Hpost].
  apply Forall_cons in Hpost as [Hd Hpost].
  apply Forall_app. split; [done|]. constructor; [|done].
  destruct (push_each_and_set_turns _ _ _ _ Hf) as [Hm _].
  unfold doc_turns at 1. rewrite Hm. by apply dialogue_app.
Qed.

(** X6. The service stores nothing but dialogues: in a collection whose
    records hold exchanges of a user turn with a text followed by an
    assistant turn, every run of chat calls, answered or failed, leaves
    such records; the stored message sequence of every session is such a
    dialogue and has an even number of turns. *)
Theorem stored_turns_are_exchanges env calls w :
  holds_dialogues (chats_collection w) ->
  holds_dialogues (chats_collection (serve env calls w).2) ∧
  ∀ sid,
    dialogue (stored_turns sid (serve env calls w).2) ∧
    Nat.Even (length (stored_turns sid (serve env calls w).2)).
Proof.
  intros Hall.
  assert (holds_dialogues (chats_collection (serve env calls w).2)) as Hall'.
  { revert w Hall. induction calls as [|req calls IH]; intros w Hall; [done|].
    rewrite serve_cons. simpl. apply IH.
    eapply appends_dialogues; [apply chat_endpoint_appends|].
    eapply creates_dialogues; [apply open_call_creates|done]. }
  split; [done|]. intros sid.
  assert (dialogue (stored_turns sid (serve env calls w).2)) as Hd.
  { unfold stored_turns, session.
    destruct (find _ _) as [d|] eqn:Hfind; [|constructor].
    apply find_some in Hfind as [Hin _].
    unfold holds_dialogues in Hall'. rewrite Forall_forall in Hall'.
    by apply Hall', list_elem_of_In. }
  split; [done|by apply dialogue_even].
Qed.

Lemma stored_exchanges_witness :
  let w' := (serve env_null [ask "s1" "Hello"; ask "s1" "Again"] world0).2 in
  holds_dialogues (chats_collection w') ∧
  ∀ sid, dialogue (stored_turns sid w') ∧ Nat.Even (length (stored_turns sid w')).
Proof.
  apply (stored_turns_are_exchanges env_null
           [ask "s1" "Hello"; ask "s1" "Again"] world0).
  constructor.
Defined.

(** ** How a call ends *)

(** The exchange a call has pushed sits at the end of the turns the
    session held before the call. *)
Lemma pushed_exchange env req w um msgs w1 ai t2 t3 c' :
  open_call env req w = (Ok (um, msgs), w1) ->
  update_first (ChatRequest.session_id req)
    (push_each_and_set [um; turn "assistant" ai t2] t3) (chats_collection w1)
  = Ok c' ->
  ∃ t1 d',
    um = turn "user" (PyStr (ChatRequest.message req)) t1 ∧
    find (matches (ChatRequest.session_id req)) c' = Some d' ∧
    doc_turns d'
    = stored_turns (ChatRequest.session_id req) w
        ++ [um; turn "assistant" ai t2].
Proof.
  intros Ho Hup.
  pose proof (open_call_spec env req w) as Hs. unfold ensures in Hs.
  rewrite Ho in Hs. simpl in Hs.
  destruct Hs as (_ & _ & [t1 Hum] & _ & d & Hd & Hturns).
  destruct (update_first_session _ _ _ _ _ _ Hd Hup) as (d' & Hd' & Hp).
  exists t1, d'. split; [done|]. split; [done|].
  destruct (push_each_and_set_turns _ _ _ _ Hp) as [Hm _].
  unfold doc_turns at 1. by rewrite Hm, Hturns.
Qed.

(** X7. A chat call that succeeds has handed exactly one request to the
    HTTP client, with the system prompt, the last ten stored turns and the
    new message, and the provider has answered it with status 200; the
    response is what [ChatResponse] makes of the completion (the completion
    itself when it is a string), and the stored sequence of the session is
    the old one followed by the user turn and the assistant turn with that
    completion. *)
Theorem answered_call env req w resp w' :
  chat_endpoint env req w = (Ok resp, w') ->
  ∃ ai t1 t2 r answer,
    new_ChatResponse env ai (ChatRequest.session_id req) = Ok resp ∧
    (∀ s, ai = PyStr s -> ChatResponse.response resp = s) ∧
    sent w' = sent w ++ [r] ∧
    messages r
    = system_message
        :: last_n 10 (stored_turns (ChatRequest.session_id req) w)
        ++ [user_entry (ChatRequest.message req)] ∧
    groq env (length (sent w)) r = Returned answer ∧
    status_code answer = 200 ∧
    stored_turns (ChatRequest.session_id req) w'
    = stored_turns (ChatRequest.session_id req) w
        ++ [turn "user" (PyStr (ChatRequest.message req)) t1;
            turn "assistant" ai t2].
Proof.
  intros Hcall.
  destruct (chat_endpoint_cases env req w)
    as [(cause & Hr & _)|(um & msgs & w1 & ai & w2 & t2 & t3 & Ho & Hl & _
                          & Hup & Hsent & _ & Hr)];
    rewrite Hcall in *; simpl in *; [done|].
  destruct (pushed_exchange _ _ _ _ _ _ _ _ _ _ Ho Hup) as (t1 & d' & -> & Hd' & Hturns).
  apply get_chat_response_Ok in Hl
    as (key & answer & body & choice & message & rest & Hkey & Hne & Hgroq
        & Hstatus & _ & _ & _ & _ & ->).
  destruct (open_call_ready _ _ _ _ _ _ Ho) as (d & _ & Hp & _ & Hs1 & _).
  pose proof (open_call_spec env req w) as Hs. unfold ensures in Hs.
  rewrite Ho in Hs. simpl in Hs. destruct Hs as (_ & _ & _ & Hmsgs & _).
  exists ai, t1, t2, (groq_request key (system_message :: msgs)), answer.
  split.
  { unfold reply in Hr.
    by destruct (new_ChatResponse env ai (ChatRequest.session_id req)). }
  split.
  { intros s ->. unfold reply in Hr. simpl in Hr. by injection Hr as ->. }
  split; [by rewrite Hsent; simpl; rewrite Hs1|].
  split; [by rewrite Hmsgs|].
  split; [by rewrite <- Hs1|]. split; [done|].
  unfold stored_turns at 1. unfold session. by rewrite Hd'.
Qed.

Lemma answered_call_witness :
  ∃ ai t1 t2 r answer,
    new_ChatResponse env_ok ai "s1"
    = Ok (ChatResponse.Build "I have 5 years of Python experience." "s1") ∧
    (∀ s, ai = PyStr s -> "I have 5 years of Python experience." = s) ∧
    sent world1 = sent world0 ++ [r] ∧
    messages r
    = system_message :: last_n 10 (stored_turns "s1" world0) ++ [user_entry "Hello"] ∧
    groq env_ok (length (sent world0)) r = Returned answer ∧
    status_code answer = 200 ∧
    stored_turns "s1" world1
    = stored_turns "s1" world0
        ++ [turn "user" (PyStr "Hello") t1; turn "assistant" ai t2].
Proof.
  apply (answered_call env_ok (ask "s1" "Hello") world0
           (ChatResponse.Build "I have 5 years of Python experience." "s1") world1).
  vm_compute. reflexivity.
Defined.

(** X8. A chat call that fails has left every stored message sequence as
    it was, with one exception: when the client returned a completion that
    is no string and that [ChatResponse] refuses, the exchange is already
    stored, with that completion as the content of the assistant turn, when
    the call raises. *)
Theorem failed_call_store env req w e w' :
  chat_endpoint env req w = (Raise e, w') ->
  (∀ sid, stored_turns sid w' = stored_turns sid w) ∨
  (∃ ai t1 t2,
     (∀ s, ai ≠ PyStr s) ∧
     coerce_str env ai = None ∧
     e = chat_error env (PyException "ValidationError" "str type expected") ∧
     stored_turns (ChatRequest.session_id req) w'
     = stored_turns (ChatRequest.session_id req) w
         ++ [turn "user" (PyStr (ChatRequest.message req)) t1;
             turn "assistant" ai t2]).
Proof.
  intros Hcall.
  destruct (chat_endpoint_cases env req w)
    as [(cause & _ & Hc)|(um & msgs & w1 & ai & w2 & t2 & t3 & Ho & _ & _
                          & Hup & _ & _ & Hr)];
    rewrite Hcall in *; simpl in *.
  - left. intros sid. apply (creates_stored_turns req). rewrite Hc.
    apply open_call_creates.
  - right.
    destruct (pushed_exchange _ _ _ _ _ _ _ _ _ _ Ho Hup) as (t1 & d' & -> & Hd' & Hturns).
    exists ai, t1, t2. unfold reply, new_ChatResponse in Hr.
    assert (stored_turns (ChatRequest.session_id req) w'
            = stored_turns (ChatRequest.session_id req) w
                ++ [turn "user" (PyStr (ChatRequest.message req)) t1;
                    turn "assistant" ai t2]) as Hstored.
    { unfold stored_turns at 1. unfold session. by rewrite Hd'. }
    destruct ai; try done;
      destruct (coerce_str env _) eqn:Hcoerce; try done;
      simplify_eq; by repeat split.
Qed.

Lemma failed_call_witness :
  let w' := (chat_endpoint env_null (ask "s1" "Hello") world0).2 in
  (∀ sid, stored_turns sid w' = stored_turns sid world0) ∨
  (∃ ai t1 t2,
     (∀ s, ai ≠ PyStr s) ∧
     coerce_str env_null ai = None ∧
     HTTPException 500 "Error processing chat: str type expected"
     = chat_error env_null (PyException "ValidationError" "str type expected") ∧
     stored_turns "s1" w'
     = stored_turns "s1" world0
         ++ [turn "user" (PyStr "Hello") t1; turn "assistant" ai t2]).
Proof.
  apply (failed_call_store env_null (ask "s1" "Hello") world0).
  vm_compute. reflexivity.
Defined.

(** ** Records that are not what the service writes *)

(** The messages for the model can be built from a record only when its
    [messages] field is there and is a list or a value that counts as
    false. *)
Lemma prepare_messages_needs d message msgs :
  prepare_messages d message = Ok msgs ->
  ∃ v, d !! "messages" = Some v ∧ (truthy v = false ∨ ∃ l, v = PyList l).
Proof.
  unfold prepare_messages. simpl.
  destruct (d !! "messages") as [v|]; simpl; [|done].
  intros Hp. exists v. split; [done|].
  destruct (truthy v) eqn:Ht; [|by left]. right.
  destruct v; simpl in Hp; try done. eauto.
Qed.

(** X11. A chat call on a session whose stored record has no list under
    [messages] (the field is missing, or holds something else) always fails
    with 500 and leaves the collection as it is; unless the field holds a
    value that counts as false, the call fails before anything is handed to
    the HTTP client. *)
Theorem malformed_record_call_fails env req w d :
  session (ChatRequest.session_id req) w = Some d ->
  ¬ has_turn_list d ->
  (∃ cause, (chat_endpoint env req w).1 = Raise (chat_error env cause)) ∧
  chats_collection (chat_endpoint env req w).2 = chats_collection w ∧
  ((∀ v, d !! "messages" = Some v -> truthy v = true) ->
   sent (chat_endpoint env req w).2 = sent w).
Proof.
  intros Hd Hbad.
  assert (∀ um msgs w1,
    open_call env req w = (Ok (um, msgs), w1) ->
    chats_collection w1 = chats_collection w ∧
    find (matches (ChatRequest.session_id req)) (chats_collection w1) = Some d ∧
    ∃ v, d !! "messages" = Some v ∧ truthy v = false) as Hopen.
  { intros um msgs w1 Ho.
    destruct (open_call_ready _ _ _ _ _ _ Ho)
      as (d1 & Hd1 & Hp & _ & _ & _ & [[Hs Hc]|[Hs _]]); [|congruence].
    assert (d1 = d) as -> by congruence.
    split; [done|]. split; [done|].
    destruct (prepare_messages_needs _ _ _ Hp) as (v & Hv & [Hf|[l ->]]);
      [by eauto|].
    destruct Hbad. by exists l. }
  assert (chats_collection (open_call env req w).2 = chats_collection w) as Hkeep.
  { pose proof (open_call_creates env req w) as Hc. unfold session in Hd.
    inversion Hc as [Heq|t Hnone Heq]; [done|congruence]. }
  destruct (chat_endpoint_cases env req w)
    as [(cause & Hr & Hc)|(um & msgs & w1 & ai & w2 & t2 & t3 & Ho & _ & _
                           & Hup & _ & _ & _)].
  - split; [by eauto|]. split; [by rewrite Hc|].
    intros Htruthy.
    destruct (chat_endpoint_sent env req w)
      as [->|(key & um & msgs & w1 & _ & _ & Ho & _)]; [done|].
    destruct (Hopen _ _ _ Ho) as (_ & _ & v & Hv & Hf).
    rewrite (Htruthy v Hv) in Hf. done.
  - destruct (Hopen _ _ _ Ho) as (_ & Hd1 & v & Hv & Hf).
    destruct (update_first_session _ _ _ _ _ _ Hd1 Hup) as (d' & _ & Hp).
    unfold push_each_and_set in Hp. rewrite Hv in Hp.
    destruct v; try done. destruct Hbad. by eexists.
Qed.

Lemma malformed_record_witness :
  (∃ cause,
     (chat_endpoint env_ok (ask "s1" "Hello") world_bad).1
     = Raise (chat_error env_ok cause)) ∧
  chats_collection (chat_endpoint env_ok (ask "s1" "Hello") world_bad).2
  = chats_collection world_bad ∧
  ((∀ v, ({[ "session_id" := PyStr "s1" ]} : Doc) !! "messages" = Some v ->
         truthy v = true) ->
   sent (chat_endpoint env_ok (ask "s1" "Hello") world_bad).2 = sent world_bad).
Proof.
  apply (malformed_record_call_fails env_ok (ask "s1" "Hello") world_bad).
  - reflexivity.
  - intros [l Hl]. vm_compute in Hl. discriminate Hl.
Defined.

(** ** The answered call *)

Lemma prepare_messages_list d message l :
  d !! "messages" = Some (PyList l) ->
  prepare_messages d message = Ok (last_n 10 l ++ [user_entry message]).
Proof.
  intros Hm. unfold prepare_messages. simpl. rewrite Hm. simpl.
  case_bool_decide as Hl; simpl; [|done].
  apply nil_length_inv in Hl. by subst.
Qed.

Lemma update_first_succeeds sid f c d d' :
  find (matches sid) c = Some d -> f d = Ok d' ->
  ∃ c', update_first sid f c = Ok c'.
Proof.
  induction c as [|x c IH]; simpl; [done|].
  destruct (matches sid x).
  - intros [= ->] ->. simpl. eauto.
  - intros Hd Hf. destruct (IH Hd Hf) as (c' & ->). simpl. eauto.
Qed.

(** With the store reachable and the record of the session, if there is
    one, holding a list of turns, the body reaches the client with the last
    ten stored turns and the new message. *)
Lemma open_call_succeeds env req w :
  (∀ d, session (ChatRequest.session_id req) w = Some d -> has_turn_list d) ->
  mongo_fault env (db_commands w) = None ->
  mongo_fault env (S (db_commands w)) = None ->
  ∃ um w1,
    open_call env req w
    = (Ok (um, last_n 10 (stored_turns (ChatRequest.session_id req) w)
                 ++ [user_entry (ChatRequest.message req)]), w1).
Proof.
  intros Hlist Hf0 Hf1. unfold stored_turns.
  destruct (session (ChatRequest.session_id req) w) as [d|] eqn:Hd.
  - destruct (Hlist d eq_refl) as [l Hm].
    assert (get_or_create env req w = (Ok d, count_command w)) as Hget.
    { unfold session in Hd.
      unfold get_or_create, find_one, command, mbind, M_bind.
      rewrite Hf0. simpl. rewrite Hd. simpl. by destruct w. }
    unfold open_call, mbind, M_bind. rewrite Hget. simpl.
    unfold lift. rewrite (prepare_messages_list d _ l Hm). simpl.
    unfold doc_turns. rewrite Hm. eauto.
  - unfold open_call, mbind, M_bind.
    rewrite (get_or_create_absent env req w Hd Hf0 Hf1). simpl.
    unfold lift. rewrite (prepare_messages_list _ _ []). { simpl. eauto. }
    unfold new_chat_doc. by rewrite lookup_insert_ne, lookup_insert_eq.
Qed.

(** Whatever context the provider answers with status 200 and a text, the
    call goes through.  By [groq_encodes] such a context carries no
    [datetime]. *)
Lemma answered_context_succeeds env req w s :
  (∀ d, session (ChatRequest.session_id req) w = Some d -> has_turn_list d) ->
  (∀ k, (k ≤ 2)%nat -> mongo_fault env (db_commands w + k) = None) ->
  provider_answers env w
    (last_n 10 (stored_turns (ChatRequest.session_id req) w)
       ++ [user_entry (ChatRequest.message req)])
    (PyStr s) ->
  (chat_endpoint env req w).1
  = Ok (ChatResponse.Build s (ChatRequest.session_id req)) ∧
  ∃ t1 t2,
    stored_turns (ChatRequest.session_id req) (chat_endpoint env req w).2
    = stored_turns (ChatRequest.session_id req) w
        ++ [turn "user" (PyStr (ChatRequest.message req)) t1;
            turn "assistant" (PyStr s) t2].
Proof.
  intros Hlist Hfault
    (key & resp & body & choice & message & rest & Hkey & Hne & Hgroq
     & Hstatus & Hjson & Hchoices & Hmessage & Hcontent).
  destruct (open_call_succeeds env req w Hlist) as (um & w1 & Ho).
  { by rewrite <- (Hfault 0%nat), Nat.add_0_r by lia. }
  { by rewrite <- (Hfault 1%nat), Nat.add_1_r by lia. }
  destruct (open_call_ready _ _ _ _ _ _ Ho)
    as (d1 & Hd1 & Hp & _ & Hs1 & Hcmd & Hcase).
  assert (mongo_fault env (db_commands w1) = None) as Hf1.
  { destruct (decide (db_commands w1 = S (db_commands w))) as [->|].
    - by rewrite <- (Hfault 1%nat), Nat.add_1_r by lia.
    - replace (db_commands w1) with (db_commands w + 2)%nat by lia.
      by apply Hfault. }
  assert (has_turn_list d1) as [l Hl].
  { destruct Hcase as [[Hs _]|(_ & [t ->] & _)]; [by apply Hlist|].
    exists []. unfold new_chat_doc. by rewrite lookup_insert_ne, lookup_insert_eq. }
  rewrite <- Hs1 in Hgroq.
  pose proof (get_chat_response_200 env _ w1 _ _ _ _ _ _ _
                Hkey Hne Hgroq Hstatus Hjson Hchoices Hmessage Hcontent) as Hllm.
  set (r := groq_request key _) in Hllm.
  destruct (update_first_succeeds (ChatRequest.session_id req)
              (push_each_and_set [um; turn "assistant" (PyStr s) (utc w1)]
                 (S (utc w1)))
              (chats_collection w1) d1
              (<["updated_at" := PyTime (S (utc w1))]>
                 (<["messages" := PyList (l ++ [um; turn "assistant" (PyStr s) (utc w1)])]> d1)))
    as (c' & Hup); [done|by unfold push_each_and_set; rewrite Hl|].
  assert (chat_endpoint env req w
          = (Ok (ChatResponse.Build s (ChatRequest.session_id req)),
             set_chats c' (count_command
               {| chats_collection := chats_collection w1;
                  utc := S (S (utc w1));
                  sent := sent w1 ++ [r];
                  db_commands := db_commands w1 |}))) as Hcall.
  { unfold chat_endpoint, try_except, mbind, M_bind. rewrite Ho. simpl.
    rewrite Hllm. simpl. unfold update_one, command. simpl.
    rewrite Hf1, Hup. done. }
  rewrite Hcall. simpl. split; [done|].
  destruct (pushed_exchange _ _ _ _ _ _ _ _ _ _ Ho Hup) as (t1 & d' & -> & Hd' & Hturns).
  exists t1, (utc w1). unfold stored_turns at 1. unfold session. simpl.
  by rewrite Hd'.
Qed.

(** X10. With the store reachable for the three commands a call can issue,
    the session unknown or its record without turns, a key configured, and
    a provider that answers the request for the new message alone with
    status 200 and a text as the content of its first choice, the chat call
    succeeds: it returns that text with the session id of the request, and
    the session holds the user turn and the assistant turn with that
    text. *)
Theorem first_exchange_succeeds env req w s :
  (∀ d, session (ChatRequest.session_id req) w = Some d ->
        d !! "messages" = Some (PyList [])) ->
  (∀ k, (k ≤ 2)%nat -> mongo_fault env (db_commands w + k) = None) ->
  provider_answers env w [user_entry (ChatRequest.message req)] (PyStr s) ->
  (chat_endpoint env req w).1
  = Ok (ChatResponse.Build s (ChatRequest.session_id req)) ∧
  ∃ t1 t2,
    stored_turns (ChatRequest.session_id req) (chat_endpoint env req w).2
    = [turn "user" (PyStr (ChatRequest.message req)) t1;
       turn "assistant" (PyStr s) t2].
Proof.
  intros Hempty Hfault Hanswer.
  assert (stored_turns (ChatRequest.session_id req) w = []) as Hnone.
  { unfold stored_turns, doc_turns.
    destruct (session (ChatRequest.session_id req) w) as [d|] eqn:Hd; [|done].
    by rewrite (Hempty d eq_refl). }
  destruct (answered_context_succeeds env req w s) as (Hr & t1 & t2 & Hturns).
  - intros d Hd. exists []. by apply Hempty.
  - done.
  - by rewrite Hnone.
  - split; [done|]. exists t1, t2. by rewrite Hturns, Hnone.
Qed.

(** A first call that timed out has left the record of [s1] without turns;
    the caller tries again and is answered. *)
Lemma first_exchange_witness :
  let w := (chat_endpoint env_timeout (ask "s1" "Hello") world0).2 in
  (chat_endpoint env_ok (ask "s1" "Hello") w).1
  = Ok (ChatResponse.Build "I have 5 years of Python experience." "s1") ∧
  ∃ t1 t2,
    stored_turns "s1" (chat_endpoint env_ok (ask "s1" "Hello") w).2
    = [turn "user" (PyStr "Hello") t1;
       turn "assistant" (PyStr "I have 5 years of Python experience.") t2].
Proof.
  apply (first_exchange_succeeds env_ok (ask "s1" "Hello")
           (chat_endpoint env_timeout (ask "s1" "Hello") world0).2).
  - intros d Hd. vm_compute in Hd. injection Hd as <-. vm_compute. reflexivity.
  - reflexivity.
  - eexists "gsk_test", _, _, _, _, _.
    split; [reflexivity|]. split; [discriminate|].
    split; [vm_compute; reflexivity|].
    split; [reflexivity|]. split; [reflexivity|].
    split; [vm_compute; reflexivity|].
    split; [vm_compute; reflexivity|].
    vm_compute; reflexivity.
Defined.

(** ** The sliding window *)





(** ** Sessions apart *)

Lemma other_session_record env req w sid :
  store_ok (chats_collection w) ->
  ChatRequest.session_id req ≠ sid ->
  session sid (chat_endpoint env req w).2 = session sid w.
Proof.
  intros Hok Hne. unfold session.
  pose proof (open_call_creates env req w) as Hc.
  pose proof (creates_store_ok _ _ _ Hc Hok) as [Hshape _].
  assert (find (matches sid) (chats_collection (open_call env req w).2)
          = find (matches sid) (chats_collection w)) as <-.
  { inversion Hc as [Heq|t Hnone Heq]; [done|].
    rewrite find_app. destruct (find (matches sid) (chats_collection w)); [done|].
    simpl. unfold matches, new_chat_doc. rewrite lookup_insert_eq. simpl.
    by rewrite bool_decide_eq_false_2. }
  pose proof (chat_endpoint_appends env req w) as Ha.
  inversion Ha as [cause Hr Heq|t1 ai t2 t3 c' Hup Hr Heq]; [done|].
  destruct (update_first_Ok _ _ _ _ Hup)
    as [[_ ->]|(pre & d & post & d' & Hpre & -> & _ & _ & Hm & Hf)]; [done|].
  rewrite Hpre in *.
  apply Forall_app in Hshape as [_ Hshape].
  apply Forall_cons in Hshape as [Hd _].
  apply find_replace.
  - apply matches_shape in Hm; [|done]. unfold matches. rewrite Hm. simpl.
    by apply bool_decide_eq_false.
  - rewrite (same_session_fields_matches sid d d')
      by by eapply push_each_and_set_fields.
    apply matches_shape in Hm; [|done]. unfold matches. rewrite Hm. simpl.
    by apply bool_decide_eq_false.
Qed.

(** X13. Sessions are apart: in a collection of records as the service
    writes them, a run of chat calls on other sessions, answered or failed,
    leaves the record of a session exactly as it is, and leaves it absent
    when it was absent. *)
Theorem sessions_are_isolated env calls w sid :
  store_ok (chats_collection w) ->
  Forall (λ req, ChatRequest.session_id req ≠ sid) calls ->
  session sid (serve env calls w).2 = session sid w.
Proof.
  revert w. induction calls as [|req calls IH]; intros w Hok Hall; [done|].
  apply Forall_cons in Hall as [Hreq Hall].
  rewrite serve_cons. simpl.
  rewrite IH; [|by apply chat_endpoint_store_ok|done].
  by apply other_session_record.
Qed.

Lemma sessions_isolated_witness :
  session "s1" (serve env_null [ask "s2" "Hi"; ask "s3" "Hello"] world1).2
  = session "s1" world1.
Proof.
  apply (sessions_are_isolated env_null [ask "s2" "Hi"; ask "s3" "Hello"] world1).
  - apply chat_endpoint_store_ok, store_ok_nil.
  - repeat constructor; done.
Defined.

(** ** Driver commands *)

Lemma open_call_commands env req w :
  let n := db_commands w in
  let n1 := db_commands (open_call env req w).2 in
  (n < n1 ≤ n + 2)%nat ∧
  commands_pass env n (n1 - 1) ∧
  (is_Ok (open_call env req w).1 = true -> commands_pass env n n1).
Proof.
  unfold open_call, get_or_create, find_one, insert_one, command, commands_pass,
    mbind, M_bind, utcnow, lift.
  destruct (mongo_fault env (db_commands w)) eqn:Hf0; simpl.
  { split; [lia|]. split; [intros; lia|done]. }
  destruct (find _ (chats_collection w)) as [d|]; simpl.
  - assert (∀ k, (db_commands w ≤ k < S (db_commands w))%nat ->
                 mongo_fault env k = None) as Hpass.
    { intros k Hk. by replace k with (db_commands w) by lia. }
    destruct (prepare_messages d _); simpl;
      (split; [lia|]; split; [intros; lia|done]).
  - destruct (mongo_fault env (S (db_commands w))) eqn:Hf1; simpl.
    + split; [lia|]. split; [|done]. intros k Hk.
      by replace k with (db_commands w) by lia.
    + assert (∀ k, (db_commands w ≤ k < S (S (db_commands w)))%nat ->
                   mongo_fault env k = None) as Hpass.
      { intros k Hk.
        destruct (decide (k = db_commands w)) as [->|]; [done|].
        by replace k with (S (db_commands w)) by lia. }
      destruct (prepare_messages _ _); simpl;
        (split; [lia|]; split; [intros k Hk; apply Hpass; lia|done]).
Qed.

Lemma chat_endpoint_commands env req w :
  db_commands (chat_endpoint env req w).2 = db_commands (open_call env req w).2 ∨
  (is_Ok (open_call env req w).1 = true ∧
   db_commands (chat_endpoint env req w).2
   = S (db_commands (open_call env req w).2)).
Proof.
  destruct (chat_endpoint_cases env req w)
    as [(cause & Hr & _)|(um & msgs & w1 & ai & w2 & t2 & t3 & Ho & _ & _
                          & _ & _ & Hcmd & _)].
  2:{ right. by rewrite Ho, Hcmd. }
  destruct (open_call env req w) as [[[um msgs]|e] w1] eqn:Ho.
  2:{ left. unfold chat_endpoint, try_except, mbind, M_bind. by rewrite Ho. }
  pose proof (get_chat_response_frame env msgs w1) as [Hframe _].
  destruct (get_chat_response env msgs w1) as [[ai|e] w2] eqn:Hl; simpl in *.
  2:{ left. unfold chat_endpoint, try_except, mbind, M_bind.
      rewrite Ho. simpl. by rewrite Hl. }
  right. split; [done|].
  unfold chat_endpoint, try_except, mbind, M_bind. rewrite Ho. simpl.
  rewrite Hl. simpl. unfold update_one, command. simpl. rewrite Hframe.
  destruct (mongo_fault env (db_commands w1)); simpl; [done|].
  destruct (update_first _ _ _); simpl; [|done].
  by destruct (new_ChatResponse env ai _).
Qed.

(** X14. A chat call sends the driver at least one command and at most
    three (lookup, insert, update), and it never goes on after a command
    that failed: every command of the call but the last went through.  A
    run of calls sends at most three commands per call. *)
Theorem driver_commands_bounded env :
  (∀ req w,
     let n := db_commands w in
     let n' := db_commands (chat_endpoint env req w).2 in
     (n < n' ≤ n + 3)%nat ∧ commands_pass env n (n' - 1)) ∧
  (∀ calls w,
     (db_commands w
      ≤ db_commands (serve env calls w).2
      ≤ db_commands w + 3 * length calls)%nat).
Proof.
  assert (∀ req w,
     let n := db_commands w in
     let n' := db_commands (chat_endpoint env req w).2 in
     (n < n' ≤ n + 3)%nat ∧ commands_pass env n (n' - 1)) as Hcall.
  { intros req w n n'. subst n n'.
    destruct (open_call_commands env req w) as (Hbound & Hpass & Hok).
    destruct (chat_endpoint_commands env req w) as [->|[Hopen ->]].
    - split; [lia|done].
    - split; [lia|]. simpl. rewrite Nat.sub_0_r. by apply Hok. }
  split; [done|].
  induction calls as [|req calls IH]; intros w; [simpl; lia|].
  rewrite serve_cons. simpl.
  destruct (Hcall req w) as [Hbound _]. specialize (IH (chat_endpoint env req w).2).
  lia.
Qed.

(** * The exchange a session holds *)

(** ** What the client can encode *)

Lemma encodes_lookup (d : Doc) k v :
  d !! k = Some v -> encodes v = false -> encodes (PyDict d) = false.
Proof.
  simpl. revert k v.
  induction d as [|i x m Hi Hfold IH] using map_first_key_ind; intros k v Hk Hv.
  - by rewrite lookup_empty in Hk.
  - rewrite map_fold_insert_first_key by done.
    destruct (decide (i = k)) as [->|Hne].
    + rewrite lookup_insert_eq in Hk. injection Hk as ->. by rewrite Hv.
    + rewrite lookup_insert_ne in Hk by done.
      rewrite (IH k v Hk Hv). apply andb_false_r.
Qed.

(** A stored turn does not encode: it has its [timestamp]. *)
Lemma turn_encodes role content timestamp :
  encodes (turn role content timestamp) = false.
Proof.
  unfold turn. apply (encodes_lookup _ "timestamp" (PyTime timestamp)); [|done].
  by rewrite !lookup_insert_ne, lookup_singleton_eq.
Qed.

Lemma last_n_nonempty {A} (l : list A) : l ≠ [] -> last_n 10 l ≠ [].
Proof.
  intros Hl Hnil. apply (f_equal length) in Hnil. rewrite last_n_length in Hnil.
  destruct l; [done|]. simpl in Hnil. lia.
Qed.

(** Nor does a context cut from stored turns. *)
Lemma context_encodes turns message :
  Forall turn_shape turns -> turns ≠ [] ->
  forallb encodes (system_message :: last_n 10 turns ++ [user_entry message])
  = false.
Proof.
  intros Hshape Hne.
  pose proof (last_n_nonempty turns Hne) as Hwin.
  assert (Forall turn_shape (last_n 10 turns)) as Hall.
  { unfold last_n. by apply Forall_drop. }
  destruct (last_n 10 turns) as [|x rest]; [done|].
  apply Forall_cons in Hall as [(role & content & t & ->) _].
  change (encodes system_message
          && (encodes (turn role content t)
              && forallb encodes (rest ++ [user_entry message])) = false).
  rewrite turn_encodes. apply andb_false_r.
Qed.

(** ** Calls on a session that holds turns *)

(** The turns of a session in a well-formed store. *)
Lemma stored_turns_shape sid w :
  store_ok (chats_collection w) ->
  stored_turns sid w ≠ [] ->
  ∃ d turns,
    session sid w = Some d ∧
    d !! "messages" = Some (PyList turns) ∧
    stored_turns sid w = turns ∧
    Forall turn_shape turns.
Proof.
  intros [Hshape _] Hturns. unfold stored_turns in *.
  destruct (session sid w) as [d|] eqn:Hd; [|done].
  unfold session in Hd. pose proof Hd as Hfind.
  apply find_some in Hfind as [Hin _].
  rewrite Forall_forall in Hshape.
  destruct (Hshape d) as (sid' & turns & info & created & _ & Hm & Hts & _).
  { by apply list_elem_of_In. }
  exists d, turns. unfold doc_turns. by rewrite Hm.
Qed.

(** A chat call on a session that holds turns fails, and stores nothing:
    the context cut from the stored turns has their timestamps, and the
    client cannot encode it. *)
Lemma call_on_turns_fails env req w :
  store_ok (chats_collection w) ->
  stored_turns (ChatRequest.session_id req) w ≠ [] ->
  ∃ cause,
    (chat_endpoint env req w).1 = Raise (chat_error env cause) ∧
    chats_collection (chat_endpoint env req w).2 = chats_collection w.
Proof.
  intros Hok Hturns.
  destruct (stored_turns_shape _ w Hok Hturns) as (d & turns & Hd & Hm & Heq & Hts).
  rewrite Heq in Hturns.
  assert (chats_collection (open_call env req w).2 = chats_collection w) as Hopen.
  { pose proof (open_call_creates env req w) as Hc.
    inversion Hc as [Hsame|t Hnone Hnew]; [done|].
    unfold session in Hd. congruence. }
  destruct (chat_endpoint_cases env req w)
    as [(cause & Hr & Hc)
       |(um & msgs & w1 & ai & w2 & t2 & t3 & Ho & Hllm & _)].
  { exists cause. split; [done|]. by rewrite Hc. }
  exfalso.
  destruct (open_call_ready _ _ _ _ _ _ Ho) as (d1 & _ & Hp & _ & _ & _ & Hcase).
  destruct Hcase as [[Hd1 _]|[Hnone _]]; [|congruence].
  assert (d1 = d) as -> by congruence.
  rewrite (prepare_messages_list d _ turns Hm) in Hp. injection Hp as <-.
  apply get_chat_response_Ok in Hllm
    as (key & resp & _ & _ & _ & _ & _ & _ & Hgroq & _).
  rewrite (groq_encodes env) in Hgroq; [done|].
  by apply context_encodes.
Qed.


(** ** Calls on a session without turns *)



(** ** A run on a session that starts without turns *)





(** ** Later calls on a session *)

Lemma get_chat_response_failed env msgs w key cls msg :
  GROQ_API_KEY env = Some key ->
  key ≠ "" ->
  groq env (length (sent w)) (groq_request key (system_message :: msgs))
  = Failed cls msg ->
  get_chat_response env msgs w
  = (Raise (HTTPException 500
              ("Error calling Groq API: " +:+ str_exn env (PyException cls msg))),
     log_request (groq_request key (system_message :: msgs)) w).
Proof.
  intros Hkey Hne Hgroq.
  unfold get_chat_response. rewrite Hkey. simpl.
  rewrite bool_decide_eq_false_2 by done. simpl.
  unfold try_except, mbind, M_bind, client_post. simpl. by rewrite Hgroq.
Qed.

(** X15. A chat call on a session whose record holds turns never succeeds:
    it raises 500 and leaves the collection as it is.  With a key
    configured and the lookup answered, the one request goes to the HTTP
    client with the last ten stored turns as they are stored, and the
    failure is the [TypeError] of the client's JSON encoder on their
    timestamps, wrapped by the client and by the endpoint. *)
Theorem later_call_fails env req w :
  store_ok (chats_collection w) ->
  stored_turns (ChatRequest.session_id req) w ≠ [] ->
  let run := chat_endpoint env req w in
  (∃ cause, run.1 = Raise (chat_error env cause)) ∧
  chats_collection run.2 = chats_collection w ∧
  ∀ key,
    GROQ_API_KEY env = Some key ->
    key ≠ "" ->
    mongo_fault env (db_commands w) = None ->
    run.1
    = Raise (chat_error env
        (HTTPException 500
           ("Error calling Groq API: " +:+
            str_exn env
              (PyException "TypeError"
                 "Object of type datetime is not JSON serializable")))) ∧
    sent run.2
    = sent w
        ++ [groq_request key
              (system_message
                 :: last_n 10 (stored_turns (ChatRequest.session_id req) w)
                 ++ [user_entry (ChatRequest.message req)])].
Proof.
  intros Hok Hturns. simpl.
  destruct (call_on_turns_fails env req w Hok Hturns) as (cause & Hr & Hc).
  split; [by exists cause|]. split; [done|].
  intros key Hkey Hne Hfault.
  destruct (stored_turns_shape _ w Hok Hturns) as (d & turns & Hd & Hm & Heq & Hts).
  rewrite Heq in *.
  assert (open_call env req w
          = (Ok (turn "user" (PyStr (ChatRequest.message req)) (utc w),
                 last_n 10 turns ++ [user_entry (ChatRequest.message req)]),
             {| chats_collection := chats_collection w;
                utc := S (utc w);
                sent := sent w;
                db_commands := S (db_commands w) |})) as Ho.
  { unfold session in Hd.
    unfold open_call, get_or_create, find_one, command, mbind, M_bind.
    rewrite Hfault. simpl. rewrite Hd. simpl.
    unfold lift. by rewrite (prepare_messages_list d _ turns Hm). }
  set (w1 := {| chats_collection := chats_collection w; utc := S (utc w);
                sent := sent w; db_commands := S (db_commands w) |}) in Ho.
  pose proof (get_chat_response_failed env
                (last_n 10 turns ++ [user_entry (ChatRequest.message req)]) w1
                key _ _ Hkey Hne
                (groq_encodes env (length (sent w1))
                   (groq_request key
                      (system_message
                         :: last_n 10 turns
                         ++ [user_entry (ChatRequest.message req)]))
                   (context_encodes turns (ChatRequest.message req) Hts Hturns)))
    as Hllm.
  unfold chat_endpoint, try_except, mbind, M_bind. rewrite Ho. simpl.
  rewrite Hllm. done.
Qed.

Lemma later_call_witness :
  let run := chat_endpoint env_ok (ask "s1" "And Python?") world1 in
  run.1
  = Raise (HTTPException 500
      "Error processing chat: Error calling Groq API: Object of type datetime is not JSON serializable") ∧
  chats_collection run.2 = chats_collection world1.
Proof.
  destruct (later_call_fails env_ok (ask "s1" "And Python?") world1)
    as (_ & Hsame & Hclient).
  - apply (chat_endpoint_store_ok env_ok (ask "s1" "Hello") world0), store_ok_nil.
  - vm_compute. discriminate.
  - split; [|exact Hsame].
    by destruct (Hclient "gsk_test" eq_refl ltac:(discriminate) eq_refl) as [-> _].
Defined.
